(** * The LinkedIn spider, embedded and verified

    A shallow embedding of [linkeninScraper/spiders/linkedinspider.py]: the
    [LinkedInProfile] dataclass and the callbacks of [LinkedInScraper]
    ([start_requests], [parse_search], [parse_profile], [errback],
    [on_spider_closed]).

    - Python [str] values are Rocq strings holding the UTF-8 encoding of the
      text; [in] and [strip] are written out on that encoding.
    - A rendered page is the element tree that [Selector(response)] builds;
      the CSS selectors of the spider are evaluated on it in document order.
    - The callbacks are generators that log, sleep, update [self] and may
      raise: they live in a small generator monad whose trace records, in
      order, everything a callback yields or does. *)

From Stdlib Require Import ZArith NArith String Ascii List DecimalString Lia Bool.
From stdpp Require Import base option list strings gmap.

#[local] Set Warnings "-register-all".

(** ** Python strings *)

Module Py.

Definition code (c : ascii) : N := N_of_ascii c.

(** [str.isspace] holds of U+0009..U+000D, U+001C..U+0020, U+0085, U+00A0,
    U+1680, U+2000..U+200A, U+2028, U+2029, U+202F, U+205F and U+3000.
    In UTF-8 these are the following one-, two- and three-byte sequences. *)
Definition space1 (a : N) : bool :=
  ((9 <=? a) && (a <=? 13) || (28 <=? a) && (a <=? 32))%N.

Definition space2 (a b : N) : bool :=
  ((a =? 194) && ((b =? 133) || (b =? 160)))%N.

Definition space3 (a b c : N) : bool :=
  ((a =? 225) && (b =? 154) && (c =? 128)
   || (a =? 226) && (b =? 128)
      && ((128 <=? c) && (c <=? 138) || (c =? 168) || (c =? 169) || (c =? 175))
   || (a =? 226) && (b =? 129) && (c =? 159)
   || (a =? 227) && (b =? 128) && (c =? 128))%N.

(** Drops white space from the front of [s]. With [backwards] the string is
    read from its end, so the bytes of a character arrive last byte first. *)
Fixpoint strip_front (backwards : bool) (s : string) : string :=
  match s with
  | String a s1 =>
      if space1 (code a) then strip_front backwards s1 else
      match s1 with
      | String b s2 =>
          if (if backwards then space2 (code b) (code a)
              else space2 (code a) (code b))
          then strip_front backwards s2 else
          match s2 with
          | String c s3 =>
              if (if backwards then space3 (code c) (code b) (code a)
                  else space3 (code a) (code b) (code c))
              then strip_front backwards s3 else s
          | EmptyString => s
          end
      | EmptyString => s
      end
  | EmptyString => s
  end.

Definition lstrip (s : string) : string := strip_front false s.

Definition rstrip (s : string) : string :=
  String.rev (strip_front true (String.rev s)).

(** [s.strip()] *)
Definition strip (s : string) : string := rstrip (lstrip s).

(** [s.startswith(prefix)] *)
Fixpoint startswith (prefix s : string) : bool :=
  match prefix, s with
  | EmptyString, _ => true
  | String a p, String b s' => Ascii.eqb a b && startswith p s'
  | String _ _, EmptyString => false
  end.

(** [needle in s] on strings *)
Fixpoint contains (needle s : string) : bool :=
  startswith needle s
  || match s with
     | EmptyString => false
     | String _ s' => contains needle s'
     end.

(** [str(n)] for integers, as f-strings format them. *)
Definition str_of_N (n : N) : string := NilZero.string_of_uint (N.to_uint n).
Definition str_of_Z (z : Z) : string := NilZero.string_of_int (Z.to_int z).

End Py.

(** ** Rendered documents and CSS selection *)

Module Dom.

(** The element tree of a parsed page: text nodes and elements with their
    attributes and children. *)
Inductive node : Type :=
| Text (s : string)
| Elem (tag : string) (attrs : gmap string string) (children : list node).

(** What a CSS test looks at in an element: the number of element siblings
    before it, its tag and its attributes. *)
Record place : Type := Place {
  before : nat;
  tag_of : string;
  attrs_of : gmap string string
}.

(** A node of the document in document order: an element with the places
    of its ancestors (outermost first), or a text node with the place of
    its parent and that parent's ancestors. *)
Inductive located : Type :=
| AtElem (path : list place) (here : place) (n : node)
| AtText (path : list place) (parent : place) (s : string).

Section Walk.
(** The children [l] of the element at [here], the first of them with
    [i] element siblings before it; [visit] lists what is in and below an
    element child. *)
Variable visit : nat -> node -> list located.
Variables (path : list place) (here : place).

Fixpoint walk (i : nat) (l : list node) : list located :=
  match l with
  | [] => []
  | Text s :: l' => AtText path here s :: walk i l'
  | k :: l' => visit i k ++ walk (S i) l'
  end.
End Walk.

Fixpoint flatten (path : list place) (pos : nat) (n : node) : list located :=
  match n with
  | Text _ => []
  | Elem t a kids =>
      let here := Place pos t a in
      AtElem path here n :: walk (flatten (path ++ [here])) path here 0 kids
  end.

(** A compound selector: [tag#id.class...[attr='v']:nth-child(n)]. *)
Record compound : Type := Compound {
  c_tag : option string;
  c_id : option string;
  c_classes : list string;
  c_attrs : list (string * string);
  c_nth_child : option nat
}.

Definition el (t : string) : compound := Compound (Some t) None [] [] None.
Definition with_id (c : compound) (i : string) : compound :=
  Compound (c_tag c) (Some i) (c_classes c) (c_attrs c) (c_nth_child c).
Definition with_class (c : compound) (k : string) : compound :=
  Compound (c_tag c) (c_id c) (c_classes c ++ [k]) (c_attrs c) (c_nth_child c).
Definition with_attr (c : compound) (k v : string) : compound :=
  Compound (c_tag c) (c_id c) (c_classes c) (c_attrs c ++ [(k, v)]) (c_nth_child c).
Definition nth_child (c : compound) (n : nat) : compound :=
  Compound (c_tag c) (c_id c) (c_classes c) (c_attrs c) (Some n).

(** The white space that separates class names: space, tab, LF and CR. *)
Definition is_sep (c : ascii) : bool :=
  let n := Py.code c in ((n =? 32) || (n =? 9) || (n =? 10) || (n =? 13))%N.

Fixpoint tokens_go (cur : string) (s : string) : list string :=
  match s with
  | EmptyString => match cur with EmptyString => [] | _ => [cur] end
  | String c s' =>
      if is_sep c
      then match cur with EmptyString => [] | _ => [cur] end ++ tokens_go "" s'
      else tokens_go (cur +:+ String c "") s'
  end.

Definition tokens (s : string) : list string := tokens_go "" s.

Definition has_class (a : gmap string string) (k : string) : bool :=
  match a !! "class" with
  | Some v => existsb (String.eqb k) (tokens v)
  | None => false
  end.

Definition has_attr (a : gmap string string) (kv : string * string) : bool :=
  match a !! kv.1 with
  | Some v => String.eqb v kv.2
  | None => false
  end.

Definition matches (c : compound) (p : place) : bool :=
  match c_tag c with Some t => String.eqb t (tag_of p) | None => true end
  && match c_id c with Some i => has_attr (attrs_of p) ("id", i) | None => true end
  && forallb (has_class (attrs_of p)) (c_classes c)
  && forallb (has_attr (attrs_of p)) (c_attrs c)
  && match c_nth_child c with Some n => Nat.eqb (S (before p)) n | None => true end.

(** The descendant combinator: the compounds [cs] are matched, in order, by
    some of the ancestors in [path] (outermost first). *)
Fixpoint consume (cs : list compound) (path : list place) : bool :=
  match cs, path with
  | [], _ => true
  | _ :: _, [] => false
  | c :: cs', p :: path' =>
      if matches c p then consume cs' path' else consume cs path'
  end.

(** [sel] is a chain of compounds joined by the descendant combinator; the
    last compound is tested on the element itself. *)
Definition selects (sel : list compound) (path : list place) (here : place) : bool :=
  match rev sel with
  | [] => false
  | c :: outer => matches c here && consume (rev outer) path
  end.

(** A parsel [Selector]: an element of the document, with its position
    among its siblings. Queries on it see the element and what is below. *)
Record Selector : Type := { position : nat; root : node }.

Definition nodes (s : Selector) : list located :=
  flatten [] (position s) (root s).

(** [s.css("sel")]: the matching elements, in document order. *)
Definition css (sel : list compound) (s : Selector) : list Selector :=
  omap (fun x =>
          match x with
          | AtElem path here n =>
              if selects sel path here
              then Some {| position := before here; root := n |} else None
          | AtText _ _ _ => None
          end) (nodes s).

(** [s.css("sel::text")]: the text nodes directly under matching elements. *)
Definition css_text (sel : list compound) (s : Selector) : list string :=
  omap (fun x =>
          match x with
          | AtText path parent t =>
              if selects sel path parent then Some t else None
          | AtElem _ _ _ => None
          end) (nodes s).

(** [s.css("sel::attr(name)")]: the attribute of the matching elements that
    carry it. *)
Definition css_attr (sel : list compound) (name : string) (s : Selector)
  : list string :=
  omap (fun x =>
          match x with
          | AtElem path here _ =>
              if selects sel path here then attrs_of here !! name else None
          | AtText _ _ _ => None
          end) (nodes s).

(** [SelectorList.get(default=d)]: the first result or [d]; plain [.get()]
    has [d = None]. *)
Definition get {A : Type} (d : option A) (l : list A) : option A :=
  match l with
  | x :: _ => Some x
  | [] => d
  end.

(** [SelectorList.getall()] *)
Definition getall {A : Type} (l : list A) : list A := l.

End Dom.

(** ** Requests, responses and failures, as the engine hands them over *)

(** The callback a request is bound to. Every request of the spider also
    carries [errback=self.errback]. *)
Inductive Callback : Type := CbParseSearch | CbParseProfile.

(** [Request.meta]: the keys the spider writes, each absent ([None]) or set.
    ["retry_times"] is written by [errback] alone, as a count that starts at
    0 and grows by one, hence a natural number. *)
Record Meta : Type := {
  playwright : option bool;
  playwright_page_methods : option (list (string * string));
  playwright_context : option string;
  retry_times : option N
}.

Module Request.
Record t : Type := {
  url : string;
  callback : Callback;
  errback : bool;
  meta : Meta
}.

(** [request.copy()] followed by [req.meta['retry_times'] = n]: the copy
    owns a fresh [meta] dict, the original is left as it was. The URL of a
    request was accepted when the request was built, so the copy is built
    as well. *)
Definition copy_with_retry_times (request : t) (n : N) : t :=
  {| url := url request;
     callback := callback request;
     errback := errback request;
     meta := {| playwright := playwright (meta request);
                playwright_page_methods := playwright_page_methods (meta request);
                playwright_context := playwright_context (meta request);
                retry_times := Some n |} |}.
End Request.

Module Response.
Record t : Type := { url : string; body : Dom.node }.
End Response.

Module Failure.
Record t : Type := { request : Request.t }.
End Failure.

(** [Selector(response)]: the query root is the document element. *)
Definition Selector (response : Response.t) : Dom.Selector :=
  {| Dom.position := 0; Dom.root := Response.body response |}.

(** ** The extracted record *)

Record LinkedInProfile : Type := {
  name : string;
  headline : string;
  location : string;
  current_position : string;
  educations_in_france : list (gmap string string);
  skills : list string;
  profile_url : string;
  scraped_at : string
}.

(** ** Generators with effects *)

Inductive item : Type :=
| ItemRequest (r : Request.t)
| ItemProfile (p : LinkedInProfile).

Inductive level : Type := DEBUG | INFO | WARNING | ERROR.

Inductive effect : Type :=
| Yield (x : item)
| Log (lvl : level) (msg : string)
| Sleep (seconds : N).

Inductive exn : Type :=
| CloseSpider (reason : string)
| AttributeError (msg : string)
| ValueError (msg : string).

(** The attributes of the spider object that callbacks read and write. *)
Record Spider : Type := { total_profiles : Z }.

Record outcome (A : Type) : Type := Outcome {
  trace : list effect;
  self_after : Spider;
  result : exn + A
}.
Arguments Outcome {A} _ _ _.
Arguments trace {A} _.
Arguments self_after {A} _.
Arguments result {A} _.

Definition gen (A : Type) : Type := Spider -> outcome A.

#[local] Instance gen_ret : MRet gen := fun A x self => Outcome [] self (inr x).

#[local] Instance gen_bind : MBind gen := fun A B f m self =>
  let o := m self in
  match result o with
  | inl e => Outcome (trace o) (self_after o) (inl e)
  | inr a =>
      let o' := f a (self_after o) in
      Outcome (trace o ++ trace o') (self_after o') (result o')
  end.

Definition emit (e : effect) : gen unit := fun self => Outcome [e] self (inr tt).
Definition yield (x : item) : gen unit := emit (Yield x).
Definition log (lvl : level) (msg : string) : gen unit := emit (Log lvl msg).
Definition sleep (seconds : N) : gen unit := emit (Sleep seconds).
Definition raise {A : Type} (e : exn) : gen A := fun self => Outcome [] self (inl e).
Definition read_self : gen Spider := fun self => Outcome [] self (inr self).
Definition write_self (self' : Spider) : gen unit := fun _ => Outcome [] self' (inr tt).

(** [for x in l: body] *)
Fixpoint for_each {A : Type} (l : list A) (body : A -> gen unit) : gen unit :=
  match l with
  | [] => mret tt
  | x :: l' => body x ;; for_each l' body
  end.

(** [for x in l: body], where the body updates a local variable. *)
Fixpoint for_fold {A B : Type} (l : list A) (acc : B) (body : B -> A -> gen B)
  : gen B :=
  match l with
  | [] => mret acc
  | x :: l' => acc' ← body acc x; for_fold l' acc' body
  end.

(** [v.strip()] where [v] may be [None]. *)
Definition py_strip (v : option string) : gen string :=
  match v with
  | Some s => mret (Py.strip s)
  | None => raise (AttributeError "'NoneType' object has no attribute 'strip'")
  end.

(** What a callback yielded, by kind and in order. *)
Definition yielded {A : Type} (o : outcome A) : list item :=
  omap (fun e => match e with Yield x => Some x | _ => None end) (trace o).

Definition requests {A : Type} (o : outcome A) : list Request.t :=
  omap (fun x => match x with ItemRequest r => Some r | _ => None end) (yielded o).

Definition profiles {A : Type} (o : outcome A) : list LinkedInProfile :=
  omap (fun x => match x with ItemProfile p => Some p | _ => None end) (yielded o).

Definition sleeps {A : Type} (o : outcome A) : list N :=
  omap (fun e => match e with Sleep n => Some n | _ => None end) (trace o).

Definition logs {A : Type} (o : outcome A) : list (level * string) :=
  omap (fun e => match e with Log l m => Some (l, m) | _ => None end) (trace o).

Definition level_of (entry : level * string) : level := entry.1.

(** ** The spider *)

Section LinkedInScraper.

(** [response.urljoin(href)], the absolute URL that [response.follow]
    requests: resolved by the framework against the page's base URL, in the
    form a request stores it. *)
Variable urljoin : Response.t -> string -> string.

Definition spider_name : string := "linkedin".

Definition search_url : string :=
  "https://www.linkedin.com/search/results/people/"
  +:+ "?keywords=France%20AND%20%28engineering%20OR%20medical%20OR%20%22computer%20science%22%29"
  +:+ "&origin=GLOBAL_SEARCH_HEADER".

(** The selectors of the callbacks, in the order they appear. *)

(** [ul.reusable-search__result-list li div.entity-result__item] *)
Definition result_entries_css : list Dom.compound :=
  [ Dom.with_class (Dom.el "ul") "reusable-search__result-list";
    Dom.el "li";
    Dom.with_class (Dom.el "div") "entity-result__item" ].

(** [a.app-aware-link] *)
Definition profile_link_css : list Dom.compound :=
  [ Dom.with_class (Dom.el "a") "app-aware-link" ].

(** [button[aria-label='Next']] *)
Definition next_button_css : list Dom.compound :=
  [ Dom.with_attr (Dom.el "button") "aria-label" "Next" ].

Definition with_classes (t : string) (ks : list string) : Dom.compound :=
  fold_left Dom.with_class ks (Dom.el t).

(** [li.inline.t-24.t-black.t-normal.break-words] *)
Definition name_css : list Dom.compound :=
  [ with_classes "li" ["inline"; "t-24"; "t-black"; "t-normal"; "break-words"] ].

(** [h2.mt1.t-18.t-black.t-normal.break-words] *)
Definition headline_css : list Dom.compound :=
  [ with_classes "h2" ["mt1"; "t-18"; "t-black"; "t-normal"; "break-words"] ].

(** [li.t-16.t-black.t-normal.inline-block] *)
Definition location_css : list Dom.compound :=
  [ with_classes "li" ["t-16"; "t-black"; "t-normal"; "inline-block"] ].

(** [section#experience-section li.pv-entity__position-group-pager
     h3.t-16.t-black.t-bold a] *)
Definition current_position_css : list Dom.compound :=
  [ Dom.with_id (Dom.el "section") "experience-section";
    Dom.with_class (Dom.el "li") "pv-entity__position-group-pager";
    with_classes "h3" ["t-16"; "t-black"; "t-bold"];
    Dom.el "a" ].

(** [section#education-section li.education__list-item] *)
Definition education_css : list Dom.compound :=
  [ Dom.with_id (Dom.el "section") "education-section";
    Dom.with_class (Dom.el "li") "education__list-item" ].

(** [h3.pv-entity__school-name] *)
Definition school_css : list Dom.compound :=
  [ Dom.with_class (Dom.el "h3") "pv-entity__school-name" ].

(** [p.pv-entity__degree-name span] *)
Definition degree_css : list Dom.compound :=
  [ Dom.with_class (Dom.el "p") "pv-entity__degree-name"; Dom.el "span" ].

(** [p.pv-entity__dates span:nth-child(2)] *)
Definition period_css : list Dom.compound :=
  [ Dom.with_class (Dom.el "p") "pv-entity__dates";
    Dom.nth_child (Dom.el "span") 2 ].

(** [section.pv-skill-categories-section
     span.pv-skill-category-entity__name-text] *)
Definition skills_css : list Dom.compound :=
  [ Dom.with_class (Dom.el "section") "pv-skill-categories-section";
    Dom.with_class (Dom.el "span") "pv-skill-category-entity__name-text" ].

(** [__init__] *)
Definition init : Spider := {| total_profiles := 0 |}.

(** [on_spider_opened], at clock reading [now] (formatted [%H:%M:%S]). *)
Definition on_spider_opened (now : string) : gen unit :=
  log INFO ("[spider_opened] " +:+ spider_name +:+ " started at " +:+ now).

Definition on_spider_closed : gen unit :=
  self ← read_self;
  log INFO ("[spider_closed] " +:+ spider_name +:+ " finished; profiles scraped: "
            +:+ Py.str_of_Z (total_profiles self));;
  if (total_profiles self =? 0)%Z
  then raise (CloseSpider "No profiles scraped — shutting down")
  else mret tt.

(** The test of the framework's [Request] on the URL it is given: a URL in
    which no ["://"] is found is refused, unless it starts with ["about:"]
    or ["data:"]. A [mailto:] or [javascript:] link is such a URL. *)
Definition valid_url (url : string) : bool :=
  Py.contains "://" url || Py.startswith "about:" url || Py.startswith "data:" url.

Definition missing_scheme (url : string) : exn :=
  ValueError ("Missing scheme in request url: " +:+ url).

(** [Request(url, callback=..., meta=..., errback=self.errback)]: the
    request, or [ValueError] when the URL is refused. *)
Definition new_request (url : string) (callback : Callback) (meta : Meta)
  : gen Request.t :=
  if valid_url url
  then mret {| Request.url := url;
               Request.callback := callback;
               Request.errback := true;
               Request.meta := meta |}
  else raise (missing_scheme url).

Definition start_requests : gen unit :=
  request ←
    new_request search_url CbParseSearch
      {| playwright := Some true;
         playwright_page_methods :=
           Some [("wait_for_selector", "ul.reusable-search__result-list")];
         playwright_context := Some "default";
         retry_times := None |};
  yield (ItemRequest request).

(** [response.follow(profile_link, callback=self.parse_profile,
     meta={"playwright": True}, errback=self.errback)]: the link is resolved
    against the page and handed to [Request], which may refuse it. *)
Definition follow (response : Response.t) (profile_link : string)
  : gen Request.t :=
  new_request (urljoin response profile_link) CbParseProfile
    {| playwright := Some true; playwright_page_methods := None;
       playwright_context := None; retry_times := None |}.

(** The request [follow] returns when the URL is accepted. *)
Definition follow_profile (response : Response.t) (profile_link : string)
  : Request.t :=
  {| Request.url := urljoin response profile_link;
     Request.callback := CbParseProfile;
     Request.errback := true;
     Request.meta :=
       {| playwright := Some true; playwright_page_methods := None;
          playwright_context := None; retry_times := None |} |}.

(** The request for the next page of results, when the URL of the page is
    accepted: the same URL, reached by a click in the browser. *)
Definition next_page (response : Response.t) : Request.t :=
  {| Request.url := Response.url response;
     Request.callback := CbParseSearch;
     Request.errback := true;
     Request.meta :=
       {| playwright := Some true;
          playwright_page_methods :=
            Some [("click", "button[aria-label='Next']");
                  ("wait_for_selector", "ul.reusable-search__result-list")];
          playwright_context := None;
          retry_times := None |} |}.

Definition parse_search (response : Response.t) : gen unit :=
  let sel := Selector response in
  let results := Dom.css result_entries_css sel in
  for_each results (fun entry =>
    let profile_link := Dom.get None (Dom.css_attr profile_link_css "href" entry) in
    match profile_link with
    | Some (String _ _ as link) =>
        request ← follow response link;
        yield (ItemRequest request)
    | _ => mret tt
    end);;
  (* the markup of the first matching button, never an empty string *)
  let next_button := Dom.get None (Dom.css next_button_css sel) in
  match next_button with
  | Some _ =>
      request ←
        new_request (Response.url response) CbParseSearch
          {| playwright := Some true;
             playwright_page_methods :=
               Some [("click", "button[aria-label='Next']");
                     ("wait_for_selector", "ul.reusable-search__result-list")];
             playwright_context := None;
             retry_times := None |};
      yield (ItemRequest request)
  | None => mret tt
  end.

(** The three texts read from one education entry. *)
Definition school_of (edu : Dom.Selector) : option string :=
  Dom.get (Some "") (Dom.css_text school_css edu).
Definition degree_of (edu : Dom.Selector) : option string :=
  Dom.get (Some "") (Dom.css_text degree_css edu).
Definition period_of (edu : Dom.Selector) : option string :=
  Dom.get (Some "") (Dom.css_text period_css edu).

(** [{"school": school, "degree": degree, "period": period}] *)
Definition education (school degree period : string) : gmap string string :=
  <["school" := school]> (<["degree" := degree]> (<["period" := period]> ∅)).

(** [parse_profile], at clock reading [now] (formatted
    [%Y-%m-%d %H:%M:%S]) for the [scraped_at] default. *)
Definition parse_profile (now : string) (response : Response.t) : gen unit :=
  let sel := Selector response in
  name ← py_strip (Dom.get (Some "") (Dom.css_text name_css sel));
  headline ← py_strip (Dom.get (Some "") (Dom.css_text headline_css sel));
  location ← py_strip (Dom.get (Some "") (Dom.css_text location_css sel));
  current_position ←
    py_strip (Dom.get (Some "") (Dom.css_text current_position_css sel));
  educations ←
    for_fold (Dom.css education_css sel) [] (fun educations edu =>
      school ← py_strip (school_of edu);
      degree ← py_strip (degree_of edu);
      period ← py_strip (period_of edu);
      if Py.contains "France" school || Py.contains "France" period
      then mret (educations ++ [education school degree period])
      else mret educations);
  let skills := Dom.getall (Dom.css_text skills_css sel) in
  let profile :=
    {| name := name;
       headline := headline;
       location := location;
       current_position := current_position;
       educations_in_france := educations;
       skills := map Py.strip skills;
       profile_url := Response.url response;
       scraped_at := now |} in
  self ← read_self;
  write_self {| total_profiles := total_profiles self + 1 |};;
  log INFO ("[scraped] " +:+ name +:+ " | " +:+ Response.url response);;
  yield (ItemProfile profile).

Definition errback (failure : Failure.t) : gen unit :=
  let request := Failure.request failure in
  log ERROR ("[error] Request failed: " +:+ Request.url request);;
  let retries := default 0%N (retry_times (Request.meta request)) in
  if (retries <? 3)%N then
    let backoff := (2 ^ retries)%N in
    log DEBUG ("[retry] Retrying " +:+ Request.url request +:+ " after "
               +:+ Py.str_of_N backoff +:+ "s");;
    sleep backoff;;
    let req := Request.copy_with_retry_times request (retries + 1) in
    yield (ItemRequest req)
  else
    log WARNING ("[giveup] " +:+ Request.url request +:+ " after "
                 +:+ Py.str_of_N retries +:+ " retries").

(** ** A crawl, seen from the spider

    The engine calls the callback of a request with the rendered page, or
    [errback] with the failure. A crawl is the list of these calls in the
    order the engine makes them; [spider_closed] fires once they are over. *)

Inductive delivery : Type :=
| Rendered (cb : Callback) (now : string) (response : Response.t)
| Failed (failure : Failure.t).

Definition dispatch (d : delivery) : gen unit :=
  match d with
  | Rendered CbParseSearch _ response => parse_search response
  | Rendered CbParseProfile now response => parse_profile now response
  | Failed failure => errback failure
  end.

(** An exception that escapes a callback is caught by the engine, which
    goes on with the next call. *)
Definition contained (m : gen unit) : gen unit := fun self =>
  let o := m self in Outcome (trace o) (self_after o) (inr tt).

Definition crawl (ds : list delivery) : gen unit :=
  for_each ds (fun d => contained (dispatch d)).

Definition run (ds : list delivery) : outcome unit :=
  (crawl ds ;; on_spider_closed) init.

(** The deliveries that are successfully rendered detail pages. *)
Definition detail_pages (ds : list delivery) : list (string * Response.t) :=
  omap (fun d => match d with
                 | Rendered CbParseProfile now response => Some (now, response)
                 | _ => None
                 end) ds.

End LinkedInScraper.

(** ** Views used to state the properties *)

(** [needle] occurs in [s]. *)
Definition substring (needle s : string) : Prop :=
  exists pre post : string, s = pre +:+ needle +:+ post.

(** The text a field receives: the first text node under the anchor, or the
    default [""], stripped. *)
Definition field_text (css : list Dom.compound) (sel : Dom.Selector) : string :=
  Py.strip (default "" (head (Dom.css_text css sel))).

(** One education entry of a detail page, as read by [parse_profile]. *)
Record entry_texts : Type := {
  school_text : string;
  degree_text : string;
  period_text : string
}.

Definition read_entry (edu : Dom.Selector) : entry_texts :=
  {| school_text := field_text school_css edu;
     degree_text := field_text degree_css edu;
     period_text := field_text period_css edu |}.

Definition mentions_France (e : entry_texts) : Prop :=
  substring "France" (school_text e) \/ substring "France" (period_text e).

Definition education_of (e : entry_texts) : gmap string string :=
  education (school_text e) (degree_text e) (period_text e).

(** The education entries of a detail page, in document order. *)
Definition education_entries (response : Response.t) : list entry_texts :=
  read_entry <$> Dom.css education_css (Selector response).

(** The test of [parse_profile] on one entry. *)
Definition kept (e : entry_texts) : bool :=
  Py.contains "France" (school_text e) || Py.contains "France" (period_text e).

(** The record [parse_profile] builds from a page, field by field. *)
Definition record_of (now : string) (response : Response.t) : LinkedInProfile :=
  let sel := Selector response in
  {| name := field_text name_css sel;
     headline := field_text headline_css sel;
     location := field_text location_css sel;
     current_position := field_text current_position_css sel;
     educations_in_france :=
       education_of <$> List.filter kept (education_entries response);
     skills := map Py.strip (Dom.css_text skills_css sel);
     profile_url := Response.url response;
     scraped_at := now |}.

(** The profile link of a result entry, when it has one that is not empty. *)
Definition resolvable_link (entry : Dom.Selector) : option string :=
  match Dom.get None (Dom.css_attr profile_link_css "href" entry) with
  | Some (String _ _ as link) => Some link
  | _ => None
  end.

(** The result entries of a search page, in document order. *)
Definition result_entries (response : Response.t) : list Dom.Selector :=
  Dom.css result_entries_css (Selector response).

(** The profile links of a search page, in the order of its entries. *)
Definition profile_links (response : Response.t) : list string :=
  omap resolvable_link (result_entries response).

(** The links [parse_search] follows until one is refused, and the URL that
    was refused, if one was. *)
Fixpoint followed (urljoin : Response.t -> string -> string)
    (response : Response.t) (links : list string) : list string * option string :=
  match links with
  | [] => ([], None)
  | link :: links' =>
      if valid_url (urljoin response link)
      then (link :: (followed urljoin response links').1,
            (followed urljoin response links').2)
      else ([], Some (urljoin response link))
  end.

(** A trace that yields the requests [rs] and has nothing else. *)
Definition yield_all (rs : list Request.t) : list effect :=
  (fun r => Yield (ItemRequest r)) <$> rs.

(** What [parse_search] comes to: the detail requests of the links that
    were followed, then [ValueError] for the link that was refused, or else
    the test on the next button and the request it asks for. *)
Definition search_outcome (urljoin : Response.t -> string -> string)
    (response : Response.t) (self : Spider) : outcome unit :=
  let links := followed urljoin response (profile_links response) in
  let detail := yield_all (follow_profile urljoin response <$> links.1) in
  match links.2 with
  | Some url => Outcome detail self (inl (missing_scheme url))
  | None =>
      match Dom.css next_button_css (Selector response) with
      | [] => Outcome detail self (inr tt)
      | _ :: _ =>
          if valid_url (Response.url response)
          then Outcome (detail ++ yield_all [next_page response]) self (inr tt)
          else Outcome detail self (inl (missing_scheme (Response.url response)))
      end
  end.

(** [parse_search] gets as far as asking for the next page: no link was
    refused, the button is in the page and the URL of the page is accepted. *)
Definition advances (urljoin : Response.t -> string -> string)
    (response : Response.t) : bool :=
  match (followed urljoin response (profile_links response)).2,
        Dom.css next_button_css (Selector response) with
  | None, _ :: _ => valid_url (Response.url response)
  | _, _ => false
  end.

(** The attempt count of a failed request: its ["retry_times"], 0 when the
    key is absent. *)
Definition attempts (failure : Failure.t) : N :=
  default 0%N (retry_times (Request.meta (Failure.request failure))).

(** The failure of [request] on its attempt number [a]. *)
Definition failed_on (request : Request.t) (a : N) : Failure.t :=
  {| Failure.request :=
       match a with
       | 0%N => request
       | _ => Request.copy_with_retry_times request a
       end |}.

(** A [button[aria-label='Next']] is in the page. *)
Definition next_button_present (response : Response.t) : Prop :=
  Dom.css next_button_css (Selector response) <> [].

#[local] Instance Callback_eq_dec : EqDecision Callback.
Proof. solve_decision. Defined.

(** Requests for detail pages and requests that advance the search. *)
Definition detail_requests {A : Type} (o : outcome A) : list Request.t :=
  filter (fun r => Request.callback r = CbParseProfile) (requests o).

Definition advance_requests {A : Type} (o : outcome A) : list Request.t :=
  filter (fun r => Request.callback r = CbParseSearch) (requests o).

(** Two records agree on everything but the time stamp. *)
Definition same_content (p q : LinkedInProfile) : Prop :=
  name p = name q /\ headline p = headline q /\ location p = location q
  /\ current_position p = current_position q
  /\ educations_in_france p = educations_in_france q
  /\ skills p = skills q /\ profile_url p = profile_url q.

(** Follows the spec's words, "an enabled next page control is present": some
    [button[aria-label='Next']] of the page does not carry the [disabled]
    attribute. *)
Definition enabled_next_control (response : Response.t) : bool :=
  existsb (fun b =>
             match Dom.root b with
             | Dom.Elem _ a _ => negb (bool_decide (is_Some (a !! "disabled")))
             | Dom.Text _ => false
             end)
          (Dom.css next_button_css (Selector response)).

(** ** Sample pages *)

Module Sample.

Definition E (t : string) (a : list (string * string)) (kids : list Dom.node)
  : Dom.node := Dom.Elem t (list_to_map a) kids.
Definition T : string -> Dom.node := Dom.Text.

(** The links of the sample pages are absolute URLs, which [urljoin]
    returns as they are. *)
Definition urljoin (_ : Response.t) (href : string) : string := href.

(** A result entry, with or without a profile link. *)
Definition result (href : option string) : Dom.node :=
  E "li" []
    [E "div" [("class", "entity-result__item")]
       [E "span" [("class", "entity-result__title-text")]
          [match href with
           | Some h => E "a" [("class", "app-aware-link scale-down"); ("href", h)]
                         [T "View profile"]
           | None => E "span" [("class", "entity-result__title")] [T "LinkedIn Member"]
           end]]].

Definition next_enabled : Dom.node :=
  E "button" [("aria-label", "Next"); ("type", "button")] [T "Next"].

Definition next_disabled : Dom.node :=
  E "button" [("aria-label", "Next"); ("type", "button"); ("disabled", "")]
    [T "Next"].

Definition search_page (results controls : list Dom.node) : Response.t :=
  {| Response.url := search_url;
     Response.body :=
       E "html" []
         [E "body" []
            (E "ul" [("class", "reusable-search__result-list")] results
             :: controls)] |}.

Definition three_results : list Dom.node :=
  [ result (Some "https://www.linkedin.com/in/ada");
    result None;
    result (Some "https://www.linkedin.com/in/grace") ].

(** Three entries, two of them with a link, and an enabled next control. *)
Definition page_with_next : Response.t := search_page three_results [next_enabled].
(** The same entries, the next control disabled. *)
Definition page_next_disabled : Response.t :=
  search_page three_results [next_disabled].
(** The same entries and no next control. *)
Definition page_without_next : Response.t := search_page three_results [].
(** No entry at all, and an enabled next control. *)
Definition empty_page_with_next : Response.t := search_page [] [next_enabled].
(** Three entries with a link, the second one a [mailto:] link, and an
    enabled next control. *)
Definition page_with_mailto : Response.t :=
  search_page
    [ result (Some "https://www.linkedin.com/in/ada");
      result (Some "mailto:grace@example.com");
      result (Some "https://www.linkedin.com/in/grace") ]
    [next_enabled].

Definition education_item (school degree period : string) : Dom.node :=
  E "li" [("class", "education__list-item")]
    [ E "h3" [("class", "pv-entity__school-name")] [T school];
      E "p" [("class", "pv-entity__degree-name")]
        [E "span" [("class", "visually-hidden")] []; E "span" [] [T degree]];
      E "p" [("class", "pv-entity__dates")]
        [E "span" [("class", "visually-hidden")] []; E "span" [] [T period]] ].

Definition name_anchor : Dom.node :=
  E "ul" [] [E "li" [("class", "inline t-24 t-black t-normal break-words")]
               [T "  Ada Lovelace "]].
Definition headline_anchor : Dom.node :=
  E "h2" [("class", "mt1 t-18 t-black t-normal break-words")] [T "Engineer"].
Definition location_anchor : Dom.node :=
  E "ul" [] [E "li" [("class", "t-16 t-black t-normal inline-block")] [T "Paris"]].
Definition position_anchor : Dom.node :=
  E "section" [("id", "experience-section")]
    [E "ul" []
       [E "li" [("class", "pv-entity__position-group-pager")]
          [E "h3" [("class", "t-16 t-black t-bold")]
             [E "a" [("href", "#")] [T "Analyst"]]]]].
Definition education_section : Dom.node :=
  E "section" [("id", "education-section")]
    [E "ul" []
       [ education_item "École Polytechnique, France" "MSc" "2010-2012";
         education_item "MIT" "BSc" "2015-2019";
         education_item "MIT" "PhD" "2015-2019 France exchange" ]].
Definition skills_section : Dom.node :=
  E "section" [("class", "pv-skill-categories-section")]
    [ E "span" [("class", "pv-skill-category-entity__name-text")] [T " Rocq "];
      E "span" [("class", "pv-skill-category-entity__name-text")] [T "Python"] ].

Definition profile_url : string := "https://www.linkedin.com/in/ada".

Definition detail_page (blocks : list Dom.node) : Response.t :=
  {| Response.url := profile_url;
     Response.body := E "html" [] [E "body" [] blocks] |}.

Definition full_page : Response.t :=
  detail_page [name_anchor; headline_anchor; location_anchor; position_anchor;
               education_section; skills_section].
(** The same page without its headline anchor. *)
Definition page_without_headline : Response.t :=
  detail_page [name_anchor; location_anchor; position_anchor;
               education_section; skills_section].
(** A page with none of the anchors. *)
Definition bare_page : Response.t := detail_page [].

Definition request : Request.t := follow_profile urljoin page_with_next profile_url.

(** That request, failed once more after three retries. *)
Definition exhausted : Failure.t :=
  {| Failure.request := Request.copy_with_retry_times request 3 |}.

Definition clock : string := "2026-01-01 12:00:00".

End Sample.

(** ** Further views *)

(** A byte of a white-space character: an ASCII white space, or a byte of
    a character outside ASCII. *)
Definition space_byte (c : ascii) : Prop :=
  Py.space1 (Py.code c) = true \/ (128 <= Py.code c)%N.

Definition space_bytes (s : string) : Prop :=
  forall c, In c (list_ascii_of_string s) -> space_byte c.

(** A character that no white-space character contains: ASCII, and not a
    white space. *)
Definition plain (c : ascii) : Prop :=
  Py.space1 (Py.code c) = false /\ (Py.code c < 128)%N.

(** The first text node under an anchor as the page has it, [""] when there
    is none: what [.get(default="")] returns, before [.strip()]. *)
Definition raw_text (css : list Dom.compound) (sel : Dom.Selector) : string :=
  default "" (head (Dom.css_text css sel)).

(** A request that is rendered in the browser and whose failure comes back
    to [errback]. *)
Definition rendered_and_guarded (r : Request.t) : Prop :=
  Request.errback r = true /\ playwright (Request.meta r) = Some true.

(** [request] fails every time it is tried: [errback] gets the failure, the
    request it yields is tried and fails in turn, for at most [fuel] calls
    of [errback]. *)
Fixpoint keep_failing (fuel : nat) (request : Request.t) : gen unit :=
  fun self =>
    match fuel with
    | O => Outcome [] self (inr tt)
    | S n =>
        let o := errback {| Failure.request := request |} self in
        match requests o with
        | r :: _ =>
            let o' := keep_failing n r (self_after o) in
            Outcome (trace o ++ trace o') (self_after o') (result o')
        | [] => o
        end
    end.

(** * Properties *)

(** ** Strings *)

Lemma append_cons (c : ascii) (s t : string) :
  String c s +:+ t = String c (s +:+ t).
Proof. reflexivity. Qed.

Lemma startswith_spec (p s : string) :
  Py.startswith p s = true <-> exists post, s = p +:+ post.
Proof.
  revert s. induction p as [|a p IH]; intros s; simpl.
  - split; [intros _; exists s; reflexivity | reflexivity].
  - destruct s as [|b s].
    + split; [discriminate | intros [post H]; rewrite append_cons in H; discriminate].
    + rewrite andb_true_iff, Ascii.eqb_eq, IH. split.
      * intros [-> [post ->]]. exists post. reflexivity.
      * intros [post H]. rewrite append_cons in H. injection H as -> ->. eauto.
Qed.

Lemma contains_spec (needle s : string) :
  Py.contains needle s = true <-> substring needle s.
Proof.
  unfold substring. induction s as [|c s IH].
  - simpl. rewrite orb_false_r, startswith_spec. split.
    + intros [post H]. exists "", post. exact H.
    + intros [[|c pre] [post H]]; [exists post; exact H|].
      rewrite append_cons in H. discriminate.
  - cbn [Py.contains]. rewrite orb_true_iff, startswith_spec, IH. split.
    + intros [[post H] | [pre [post H]]].
      * exists "", post. exact H.
      * exists (String c pre), post. rewrite append_cons. congruence.
    + intros [[|c' pre] [post H]].
      * left. exists post. exact H.
      * right. rewrite append_cons in H. injection H as -> ->. eauto.
Qed.

#[local] Instance substring_dec (needle s : string) : Decision (substring needle s).
Proof.
  destruct (Py.contains needle s) eqn:H.
  - left. apply contains_spec, H.
  - right. intros Hs. apply contains_spec in Hs. congruence.
Defined.

#[local] Instance mentions_France_dec (e : entry_texts) : Decision (mentions_France e).
Proof. unfold mentions_France. apply _. Defined.

Lemma kept_spec (e : entry_texts) : kept e = true <-> mentions_France e.
Proof.
  unfold kept, mentions_France. rewrite orb_true_iff, !contains_spec. reflexivity.
Qed.

Lemma filter_kept (l : list entry_texts) :
  List.filter kept l = filter mentions_France l.
Proof.
  induction l as [|e l IH]; [reflexivity|].
  simpl. rewrite filter_cons, IH.
  destruct (kept e) eqn:He; destruct (decide (mentions_France e)) as [Hm|Hm];
    try reflexivity; exfalso.
  - apply Hm, kept_spec, He.
  - apply kept_spec in Hm. congruence.
Qed.

(** ** Documents *)

Lemma node_rect' (P : Dom.node -> Prop) :
  (forall s, P (Dom.Text s)) ->
  (forall t a kids, Forall P kids -> P (Dom.Elem t a kids)) ->
  forall n, P n.
Proof.
  intros HT HE. fix IH 1. intros [s|t a kids]; [apply HT|].
  apply HE. induction kids as [|k kids IHk]; constructor; [apply IH | exact IHk].
Qed.

(** A text node is listed only with its parent element. *)
Lemma flatten_text_parent (n : Dom.node) :
  forall path pos p par t,
    Dom.AtText p par t ∈ Dom.flatten path pos n ->
    exists m, Dom.AtElem p par m ∈ Dom.flatten path pos n.
Proof.
  induction n as [s|tg a kids IH] using node_rect'; intros path pos p par t; simpl.
  - intros H. inversion H.
  - set (here := Dom.Place pos tg a).
    intros H. apply elem_of_cons in H as [H|H]; [discriminate|].
    assert (Hw : forall i,
      Dom.AtText p par t ∈ Dom.walk (Dom.flatten (path ++ [here])) path here i kids ->
      (p = path /\ par = here)
      \/ exists m, Dom.AtElem p par m
                   ∈ Dom.walk (Dom.flatten (path ++ [here])) path here i kids).
    { clear H. induction IH as [|k kids Hk _ IHkids]; intros i; simpl.
      - intros H. inversion H.
      - destruct k as [s|tg' a' kids'].
        + intros H. apply elem_of_cons in H as [H|H].
          * injection H as -> -> _. left. auto.
          * destruct (IHkids i H) as [?|[m Hm]]; [left; assumption|].
            right. exists m. apply elem_of_cons. right. exact Hm.
        + intros H. apply elem_of_app in H as [H|H].
          * right. destruct (Hk _ _ _ _ _ H) as [m Hm].
            exists m. apply elem_of_app. left. exact Hm.
          * destruct (IHkids (S i) H) as [?|[m Hm]]; [left; assumption|].
            right. exists m. apply elem_of_app. right. exact Hm. }
    destruct (Hw 0%nat H) as [[-> ->]|[m Hm]].
    + exists (Dom.Elem tg a kids). apply elem_of_cons. left. reflexivity.
    + exists m. apply elem_of_cons. right. exact Hm.
Qed.

(** Where no element matches a selector, its [::text] finds nothing. *)
Lemma css_text_nil (sel : list Dom.compound) (s : Dom.Selector) :
  Dom.css sel s = [] -> Dom.css_text sel s = [].
Proof.
  intros Hnil. destruct (Dom.css_text sel s) as [|t l] eqn:Ht; [reflexivity|].
  exfalso.
  assert (Hin : t ∈ Dom.css_text sel s) by (rewrite Ht; apply elem_of_cons; auto).
  unfold Dom.css_text in Hin. apply list_elem_of_omap in Hin as [x [Hx Hf]].
  destruct x as [p h n|p par t']; [discriminate|].
  destruct (Dom.selects sel p par) eqn:Hsel; [|discriminate].
  destruct (flatten_text_parent _ _ _ _ _ _ Hx) as [m Hm].
  assert (Hc : {| Dom.position := Dom.before par; Dom.root := m |} ∈ Dom.css sel s).
  { unfold Dom.css. apply list_elem_of_omap. exists (Dom.AtElem p par m).
    split; [exact Hm|]. simpl. rewrite Hsel. reflexivity. }
  rewrite Hnil in Hc. inversion Hc.
Qed.

Lemma field_text_missing (css : list Dom.compound) (sel : Dom.Selector) :
  Dom.css css sel = [] -> field_text css sel = "".
Proof.
  intros H. unfold field_text. rewrite (css_text_nil _ _ H). reflexivity.
Qed.

(** ** Generators *)

Lemma bind_run {A B : Type} (m : gen A) (f : A -> gen B) (self : Spider) :
  (m ≫= f) self
  = match result (m self) with
    | inl e => Outcome (trace (m self)) (self_after (m self)) (inl e)
    | inr a =>
        Outcome (trace (m self) ++ trace (f a (self_after (m self))))
                (self_after (f a (self_after (m self))))
                (result (f a (self_after (m self))))
    end.
Proof. reflexivity. Qed.

Lemma ret_run {A : Type} (x : A) (self : Spider) :
  (mret x : gen A) self = Outcome [] self (inr x).
Proof. reflexivity. Qed.

Lemma get_default {A : Type} (d : A) (l : list A) :
  Dom.get (Some d) l = Some (default d (head l)).
Proof. destruct l; reflexivity. Qed.

Lemma py_strip_field (css : list Dom.compound) (sel : Dom.Selector) :
  py_strip (Dom.get (Some "") (Dom.css_text css sel)) = mret (field_text css sel).
Proof. rewrite get_default. reflexivity. Qed.

(** ** [parse_profile] *)

Lemma education_loop (entries : list Dom.Selector) (acc : list (gmap string string))
    (self : Spider) :
  for_fold entries acc (fun educations edu =>
    school ← py_strip (school_of edu);
    degree ← py_strip (degree_of edu);
    period ← py_strip (period_of edu);
    if Py.contains "France" school || Py.contains "France" period
    then mret (educations ++ [education school degree period])
    else mret educations) self
  = Outcome [] self
      (inr (acc ++ (education_of <$> List.filter kept (read_entry <$> entries)))).
Proof.
  match goal with |- for_fold _ _ ?b _ = _ => set (body := b) end.
  assert (Hstep : forall educations edu s,
    body educations edu s
    = Outcome [] s
        (inr (if kept (read_entry edu)
              then educations ++ [education_of (read_entry edu)]
              else educations))).
  { intros educations edu s. unfold body, school_of, degree_of, period_of.
    rewrite !py_strip_field. unfold kept, education_of. cbn [read_entry school_text degree_text period_text].
    unfold mbind, gen_bind, mret, gen_ret. cbn [result trace self_after app].
    destruct (Py.contains "France" (field_text school_css edu)
              || Py.contains "France" (field_text period_css edu)); reflexivity. }
  clearbody body. revert acc.
  induction entries as [|edu entries IH]; intros acc.
  - cbn. rewrite app_nil_r. reflexivity.
  - cbn [for_fold]. rewrite bind_run, Hstep. cbn [result trace self_after].
    rewrite IH. cbn [trace self_after result app fmap list_fmap List.filter].
    destruct (kept (read_entry edu)); [|reflexivity].
    cbn [fmap list_fmap]. rewrite <- app_assoc. reflexivity.
Qed.

(** [parse_profile] in one piece: it logs, counts and yields the record. *)
Lemma parse_profile_run (now : string) (response : Response.t) (self : Spider) :
  parse_profile now response self
  = Outcome
      [ Log INFO ("[scraped] " +:+ name (record_of now response) +:+ " | "
                  +:+ Response.url response);
        Yield (ItemProfile (record_of now response)) ]
      {| total_profiles := total_profiles self + 1 |}
      (inr tt).
Proof.
  unfold parse_profile.
  do 4 (rewrite bind_run, py_strip_field, ret_run; cbn [result trace self_after app]).
  rewrite bind_run, education_loop; cbn [result trace self_after app].
  reflexivity.
Qed.

(** ** [parse_search] *)

Section Search.
Variable urljoin : Response.t -> string -> string.

Lemma new_request_run (url : string) (cb : Callback) (m : Meta) (self : Spider) :
  new_request url cb m self
  = if valid_url url
    then Outcome [] self
           (inr {| Request.url := url; Request.callback := cb;
                   Request.errback := true; Request.meta := m |})
    else Outcome [] self (inl (missing_scheme url)).
Proof. unfold new_request. destruct (valid_url url); reflexivity. Qed.

(** The loop over the result entries: it yields a request per link until a
    link is refused. *)
Lemma search_loop (response : Response.t) (entries : list Dom.Selector)
    (self : Spider) :
  for_each entries (fun entry =>
    match Dom.get None (Dom.css_attr profile_link_css "href" entry) with
    | Some (String _ _ as link) =>
        request ← follow urljoin response link;
        yield (ItemRequest request)
    | _ => mret tt
    end) self
  = let links := followed urljoin response (omap resolvable_link entries) in
    Outcome (yield_all (follow_profile urljoin response <$> links.1)) self
      (match links.2 with
       | Some url => inl (missing_scheme url)
       | None => inr tt
       end).
Proof.
  match goal with |- for_each _ ?b _ = _ => set (body := b) end.
  assert (Hstep : forall entry s,
    body entry s
    = match resolvable_link entry with
      | None => Outcome [] s (inr tt)
      | Some link =>
          if valid_url (urljoin response link)
          then Outcome [Yield (ItemRequest (follow_profile urljoin response link))]
                       s (inr tt)
          else Outcome [] s (inl (missing_scheme (urljoin response link)))
      end).
  { intros entry s. unfold body, resolvable_link.
    destruct (Dom.get None (Dom.css_attr profile_link_css "href" entry))
      as [[|c link]|]; try reflexivity.
    rewrite bind_run. unfold follow. rewrite new_request_run.
    destruct (valid_url (urljoin response (String c link))); reflexivity. }
  clearbody body. induction entries as [|entry entries IH]; [reflexivity|].
  cbn [for_each]. rewrite bind_run, Hstep. cbn [omap list_omap].
  destruct (resolvable_link entry) as [link|]; cbn [result trace self_after].
  - cbn [followed].
    destruct (valid_url (urljoin response link)); cbn [result trace self_after];
      [|reflexivity].
    rewrite IH. reflexivity.
  - rewrite IH. reflexivity.
Qed.

(** [parse_search] in one piece. *)
Lemma parse_search_run (response : Response.t) (self : Spider) :
  parse_search urljoin response self = search_outcome urljoin response self.
Proof.
  unfold parse_search, search_outcome, profile_links, result_entries.
  rewrite bind_run, search_loop. cbn [result trace self_after].
  destruct (followed urljoin response
              (omap resolvable_link (Dom.css result_entries_css (Selector response)))).2;
    [reflexivity|].
  destruct (Dom.css next_button_css (Selector response)) as [|b l];
    cbn [Dom.get trace self_after result].
  - rewrite ret_run. cbn [trace self_after result]. rewrite app_nil_r. reflexivity.
  - rewrite bind_run, new_request_run.
    destruct (valid_url (Response.url response)); cbn [trace self_after result];
      [reflexivity|].
    rewrite app_nil_r. reflexivity.
Qed.

Lemma requests_yield_all (rs : list Request.t) :
  omap (fun x => match x with ItemRequest r => Some r | _ => None end)
    (omap (fun e => match e with Yield x => Some x | _ => None end) (yield_all rs))
  = rs.
Proof. induction rs as [|r rs IH]; [reflexivity|]. cbn. f_equal. exact IH. Qed.

Lemma profiles_yield_all (rs : list Request.t) :
  omap (fun x => match x with ItemProfile p => Some p | _ => None end)
    (omap (fun e => match e with Yield x => Some x | _ => None end) (yield_all rs))
  = [].
Proof. induction rs as [|r rs IH]; [reflexivity|]. exact IH. Qed.

Lemma yield_all_app (rs rs' : list Request.t) :
  yield_all (rs ++ rs') = yield_all rs ++ yield_all rs'.
Proof. apply fmap_app. Qed.

(** The trace of [parse_search] is the yield of its requests and nothing
    else. *)
Lemma trace_parse_search (response : Response.t) (self : Spider) :
  trace (parse_search urljoin response self)
  = yield_all
      ((follow_profile urljoin response
          <$> (followed urljoin response (profile_links response)).1)
       ++ (if advances urljoin response then [next_page response] else [])).
Proof.
  rewrite parse_search_run. unfold search_outcome, advances.
  destruct (followed urljoin response (profile_links response)).2;
    [cbn [trace]; rewrite app_nil_r; reflexivity|].
  destruct (Dom.css next_button_css (Selector response));
    [cbn [trace]; rewrite app_nil_r; reflexivity|].
  destruct (valid_url (Response.url response)); cbn [trace].
  - rewrite yield_all_app. reflexivity.
  - rewrite app_nil_r. reflexivity.
Qed.

Lemma self_after_parse_search (response : Response.t) (self : Spider) :
  self_after (parse_search urljoin response self) = self.
Proof.
  rewrite parse_search_run. unfold search_outcome.
  destruct (followed urljoin response (profile_links response)).2; [reflexivity|].
  destruct (Dom.css next_button_css (Selector response)); [reflexivity|].
  destruct (valid_url (Response.url response)); reflexivity.
Qed.

Lemma result_parse_search (response : Response.t) (self : Spider) :
  result (parse_search urljoin response self)
  = match (followed urljoin response (profile_links response)).2 with
    | Some url => inl (missing_scheme url)
    | None =>
        match Dom.css next_button_css (Selector response) with
        | [] => inr tt
        | _ :: _ =>
            if valid_url (Response.url response) then inr tt
            else inl (missing_scheme (Response.url response))
        end
    end.
Proof.
  rewrite parse_search_run. unfold search_outcome.
  destruct (followed urljoin response (profile_links response)).2; [reflexivity|].
  destruct (Dom.css next_button_css (Selector response)); [reflexivity|].
  destruct (valid_url (Response.url response)); reflexivity.
Qed.

Lemma requests_parse_search (response : Response.t) (self : Spider) :
  requests (parse_search urljoin response self)
  = (follow_profile urljoin response
       <$> (followed urljoin response (profile_links response)).1)
    ++ (if advances urljoin response then [next_page response] else []).
Proof.
  unfold requests, yielded. rewrite trace_parse_search. apply requests_yield_all.
Qed.

Lemma filter_follow_detail (response : Response.t) (links : list string) :
  filter (fun r => Request.callback r = CbParseProfile)
         (follow_profile urljoin response <$> links)
  = follow_profile urljoin response <$> links.
Proof.
  induction links as [|l links IH]; [reflexivity|].
  cbn [fmap list_fmap]. rewrite filter_cons_True by reflexivity.
  f_equal. exact IH.
Qed.

Lemma filter_follow_advance (response : Response.t) (links : list string) :
  filter (fun r => Request.callback r = CbParseSearch)
         (follow_profile urljoin response <$> links)
  = [].
Proof.
  induction links as [|l links IH]; [reflexivity|].
  cbn [fmap list_fmap]. rewrite filter_cons_False by discriminate. exact IH.
Qed.

Lemma url_follow_profile (response : Response.t) (links : list string) :
  Request.url <$> (follow_profile urljoin response <$> links)
  = urljoin response <$> links.
Proof.
  induction links as [|l links IH]; [reflexivity|].
  rewrite !fmap_cons, IH. reflexivity.
Qed.

Lemma detail_requests_parse_search (response : Response.t) (self : Spider) :
  detail_requests (parse_search urljoin response self)
  = follow_profile urljoin response
      <$> (followed urljoin response (profile_links response)).1.
Proof.
  unfold detail_requests. rewrite requests_parse_search, filter_app.
  rewrite filter_follow_detail.
  destruct (advances urljoin response);
    [rewrite filter_cons_False by discriminate|];
    rewrite filter_nil, app_nil_r; reflexivity.
Qed.

Lemma advance_requests_parse_search (response : Response.t) (self : Spider) :
  advance_requests (parse_search urljoin response self)
  = if advances urljoin response then [next_page response] else [].
Proof.
  unfold advance_requests. rewrite requests_parse_search, filter_app.
  rewrite filter_follow_advance.
  destruct (advances urljoin response); [|reflexivity].
  rewrite filter_cons_True by reflexivity. reflexivity.
Qed.

(** The links that are followed are the first links of the page. *)
Lemma followed_prefix (response : Response.t) (links : list string) :
  (followed urljoin response links).1 `prefix_of` links.
Proof.
  induction links as [|link links IH]; [reflexivity|].
  cbn [followed]. destruct (valid_url (urljoin response link)); cbn [fst].
  - apply prefix_cons, IH.
  - apply prefix_nil.
Qed.

Lemma followed_stops (response : Response.t) (pre : list string) (link : string)
    (post : list string) :
  Forall (fun l => valid_url (urljoin response l) = true) pre ->
  valid_url (urljoin response link) = false ->
  followed urljoin response (pre ++ link :: post)
  = (pre, Some (urljoin response link)).
Proof.
  intros Hpre Hlink. induction Hpre as [|l pre Hl _ IH]; cbn [app followed].
  - rewrite Hlink. reflexivity.
  - rewrite Hl, IH. reflexivity.
Qed.

Lemma followed_all (response : Response.t) (links : list string) :
  Forall (fun l => valid_url (urljoin response l) = true) links ->
  followed urljoin response links = (links, None).
Proof.
  intros H. induction H as [|l links Hl _ IH]; [reflexivity|].
  cbn [followed]. rewrite Hl, IH. reflexivity.
Qed.

Lemma followed_complete (response : Response.t) (links : list string) :
  (followed urljoin response links).2 = None ->
  (followed urljoin response links).1 = links.
Proof.
  induction links as [|link links IH]; [reflexivity|].
  cbn [followed]. destruct (valid_url (urljoin response link)); cbn [fst snd].
  - intros H. f_equal. apply IH, H.
  - discriminate.
Qed.

End Search.

(** ** [errback] *)

Lemma errback_retry (failure : Failure.t) (self : Spider) :
  let request := Failure.request failure in
  let retries := default 0%N (retry_times (Request.meta request)) in
  (retries < 3)%N ->
  errback failure self
  = Outcome
      [ Log ERROR ("[error] Request failed: " +:+ Request.url request);
        Log DEBUG ("[retry] Retrying " +:+ Request.url request +:+ " after "
                   +:+ Py.str_of_N (2 ^ retries) +:+ "s");
        Sleep (2 ^ retries);
        Yield (ItemRequest (Request.copy_with_retry_times request (retries + 1))) ]
      self (inr tt).
Proof.
  intros request retries H. unfold errback. fold request. fold retries.
  apply N.ltb_lt in H. rewrite bind_run. cbn [log emit result trace self_after].
  rewrite H. reflexivity.
Qed.

Lemma errback_giveup (failure : Failure.t) (self : Spider) :
  let request := Failure.request failure in
  let retries := default 0%N (retry_times (Request.meta request)) in
  (3 <= retries)%N ->
  errback failure self
  = Outcome
      [ Log ERROR ("[error] Request failed: " +:+ Request.url request);
        Log WARNING ("[giveup] " +:+ Request.url request +:+ " after "
                     +:+ Py.str_of_N retries +:+ " retries") ]
      self (inr tt).
Proof.
  intros request retries H. unfold errback. fold request. fold retries.
  apply N.ltb_ge in H. rewrite bind_run. cbn [log emit result trace self_after].
  rewrite H. reflexivity.
Qed.

(** ** Crawls *)

Section Crawl.
Variable urljoin : Response.t -> string -> string.

Lemma crawl_cons (d : delivery) (ds : list delivery) (self : Spider) :
  crawl urljoin (d :: ds) self
  = let o := dispatch urljoin d self in
    let o' := crawl urljoin ds (self_after o) in
    Outcome (trace o ++ trace o') (self_after o') (result o').
Proof. reflexivity. Qed.

Lemma crawl_result (ds : list delivery) (self : Spider) :
  result (crawl urljoin ds self) = inr tt.
Proof.
  revert self. induction ds as [|d ds IH]; intros self; [reflexivity|].
  rewrite crawl_cons. cbn [result]. apply IH.
Qed.

Lemma profiles_crawl_cons (d : delivery) (ds : list delivery) (self : Spider) :
  profiles (crawl urljoin (d :: ds) self)
  = profiles (dispatch urljoin d self)
    ++ profiles (crawl urljoin ds (self_after (dispatch urljoin d self))).
Proof.
  rewrite crawl_cons. unfold profiles, yielded. cbn [trace].
  rewrite !omap_app. reflexivity.
Qed.

Lemma sleeps_crawl_cons (d : delivery) (ds : list delivery) (self : Spider) :
  sleeps (crawl urljoin (d :: ds) self)
  = sleeps (dispatch urljoin d self)
    ++ sleeps (crawl urljoin ds (self_after (dispatch urljoin d self))).
Proof.
  rewrite crawl_cons. unfold sleeps. cbn [trace]. apply omap_app.
Qed.

Lemma profiles_parse_search (response : Response.t) (self : Spider) :
  profiles (parse_search urljoin response self) = [].
Proof.
  unfold profiles, yielded. rewrite trace_parse_search. apply profiles_yield_all.
Qed.

Lemma profiles_errback (failure : Failure.t) (self : Spider) :
  profiles (errback failure self) = [] /\ self_after (errback failure self) = self.
Proof.
  destruct (N.lt_ge_cases
              (default 0%N (retry_times (Request.meta (Failure.request failure)))) 3)
    as [H|H].
  - rewrite (errback_retry _ _ H). split; reflexivity.
  - rewrite (errback_giveup _ _ H). split; reflexivity.
Qed.

(** What one delivery adds to the emitted records and to the counter. *)
Lemma dispatch_profiles (d : delivery) (self : Spider) :
  profiles (dispatch urljoin d self)
  = (fun '(now, response) => record_of now response) <$> detail_pages [d]
  /\ total_profiles (self_after (dispatch urljoin d self))
     = (total_profiles self + Z.of_nat (length (detail_pages [d])))%Z.
Proof.
  destruct d as [[|] now response|failure]; cbn [dispatch detail_pages omap list_omap].
  - rewrite profiles_parse_search, self_after_parse_search. cbn.
    split; [reflexivity|lia].
  - rewrite parse_profile_run. split; reflexivity.
  - destruct (profiles_errback failure self) as [-> ->]. cbn. split; [reflexivity|lia].
Qed.

(** The records of a crawl are those of its detail pages, in order, and
    the counter has moved by their number. *)
Lemma crawl_profiles (ds : list delivery) (self : Spider) :
  profiles (crawl urljoin ds self)
  = (fun '(now, response) => record_of now response) <$> detail_pages ds
  /\ total_profiles (self_after (crawl urljoin ds self))
     = (total_profiles self + Z.of_nat (length (detail_pages ds)))%Z.
Proof.
  revert self. induction ds as [|d ds IH]; intros self.
  - cbn. split; [reflexivity|lia].
  - rewrite profiles_crawl_cons, crawl_cons. cbn [self_after].
    destruct (dispatch_profiles d self) as [Hp Hc].
    destruct (IH (self_after (dispatch urljoin d self))) as [Hp' Hc'].
    rewrite Hp, Hp', Hc', Hc.
    change (d :: ds) with ([d] ++ ds). unfold detail_pages.
    rewrite omap_app, fmap_app, length_app. split; [reflexivity|lia].
Qed.

End Crawl.

(** * The claims *)

(** ** Retry and give-up *)

(** C1. A failed request with attempt count [a] is retried after a sleep of
    exactly [2^a] seconds when [a] is 0, 1 or 2, and is given up (nothing
    slept, nothing yielded) when [a >= 3]. A request that keeps failing is
    therefore retried after 1, 2 and 4 seconds, a strictly increasing
    sequence, and then dropped. *)
Theorem errback_backoff_policy (failure : Failure.t) (self : Spider) (a : N) :
  attempts failure = a ->
  let o := errback failure self in
  ((a < 3)%N ->
     sleeps o = [(2 ^ a)%N]
     /\ requests o = [Request.copy_with_retry_times (Failure.request failure) (a + 1)])
  /\ ((3 <= a)%N -> sleeps o = [] /\ yielded o = [])
  /\ (forall urljoin request,
        retry_times (Request.meta request) = None ->
        let o4 := crawl urljoin
                    [ Failed (failed_on request 0); Failed (failed_on request 1);
                      Failed (failed_on request 2); Failed (failed_on request 3) ]
                    self in
        sleeps o4 = [1; 2; 4]%N
        /\ requests o4 = Failure.request <$> [ failed_on request 1;
                                              failed_on request 2;
                                              failed_on request 3 ])
  /\ (forall failure', (a < attempts failure' < 3)%N ->
        exists d d', sleeps o = [d] /\ sleeps (errback failure' self) = [d']
                     /\ (d < d')%N).
Proof.
  intros Ha o. subst o. unfold attempts in *.
  split; [|split; [|split]].
  - intros Hlt. rewrite errback_retry by (rewrite Ha; assumption).
    rewrite Ha. split; reflexivity.
  - intros Hge. rewrite errback_giveup by (rewrite Ha; assumption).
    split; reflexivity.
  - intros urljoin [u cb eb [pw pm pc rt]] Hrt.
    cbn in Hrt. subst rt. split; reflexivity.
  - intros failure' [H1 H2].
    exists (2 ^ a)%N,
      (2 ^ default 0%N (retry_times (Request.meta (Failure.request failure'))))%N.
    rewrite !errback_retry by (rewrite ?Ha; lia).
    rewrite Ha. repeat split. apply N.pow_lt_mono_r; lia.
Qed.

Lemma errback_backoff_policy_witness :
  sleeps (errback (failed_on Sample.request 2) init) = [4%N]
  /\ requests (errback (failed_on Sample.request 2) init)
     = [Request.copy_with_retry_times Sample.request 3].
Proof.
  destruct (errback_backoff_policy (failed_on Sample.request 2) init 2 eq_refl)
    as [H _].
  apply H. reflexivity.
Defined.

(** ** The end of a run *)

Lemma on_spider_closed_run (self : Spider) :
  on_spider_closed self
  = Outcome
      [ Log INFO ("[spider_closed] " +:+ spider_name +:+ " finished; profiles scraped: "
                  +:+ Py.str_of_Z (total_profiles self)) ]
      self
      (if (total_profiles self =? 0)%Z
       then inl (CloseSpider "No profiles scraped — shutting down")
       else inr tt).
Proof.
  unfold on_spider_closed. rewrite !bind_run. cbn [read_self log emit result trace self_after].
  destruct (total_profiles self =? 0)%Z; reflexivity.
Qed.

Lemma run_unfold (urljoin : Response.t -> string -> string) (ds : list delivery) :
  profiles (run urljoin ds) = profiles (crawl urljoin ds init)
  /\ result (run urljoin ds)
     = (if (Z.of_nat (length (detail_pages ds)) =? 0)%Z
        then inl (CloseSpider "No profiles scraped — shutting down")
        else inr tt).
Proof.
  unfold run. rewrite bind_run, crawl_result, on_spider_closed_run.
  cbn [trace self_after result].
  destruct (crawl_profiles urljoin ds init) as [_ Hc]. rewrite Hc.
  split.
  - unfold profiles, yielded. cbn [trace]. rewrite !omap_app. cbn. apply app_nil_r.
  - reflexivity.
Qed.

(** C2. When the crawl is over, [on_spider_closed] raises [CloseSpider]
    exactly when no profile was emitted during the run; a run that emitted
    at least one profile ends without it. The handler itself raises exactly
    when the counter is 0. *)
Theorem empty_run_reported (urljoin : Response.t -> string -> string)
    (ds : list delivery) :
  let o := run urljoin ds in
  (result o = inl (CloseSpider "No profiles scraped — shutting down")
   <-> length (profiles o) = 0%nat)
  /\ (1 <= length (profiles o) -> result o = inr tt)
  /\ (forall self,
        result (on_spider_closed self)
        = inl (CloseSpider "No profiles scraped — shutting down")
        <-> total_profiles self = 0%Z).
Proof.
  intros o. subst o. destruct (run_unfold urljoin ds) as [Hp Hr].
  destruct (crawl_profiles urljoin ds init) as [Hc _].
  rewrite Hp, Hr, Hc, length_fmap.
  split; [|split].
  - destruct (Z.eqb_spec (Z.of_nat (length (detail_pages ds))) 0) as [H|H];
      split; intros H'; try reflexivity; try discriminate; lia.
  - intros H'.
    destruct (Z.eqb_spec (Z.of_nat (length (detail_pages ds))) 0) as [H|H];
      [lia | reflexivity].
  - intros self. rewrite on_spider_closed_run. cbn [result].
    destruct (Z.eqb_spec (total_profiles self) 0); split; congruence.
Qed.

Lemma empty_run_reported_witness :
  result (run Sample.urljoin [Rendered CbParseProfile Sample.clock Sample.bare_page])
  = inr tt.
Proof.
  destruct (empty_run_reported Sample.urljoin
              [Rendered CbParseProfile Sample.clock Sample.bare_page])
    as [_ [H _]].
  apply H. vm_compute. lia.
Defined.

(** C3, as the claim states it, fails: giving up moves no counter. After the
    give-up of a request that failed with three retries behind it, no
    quantity read off the spider has grown by one. *)
Lemma giveup_counts_nothing :
  ~ exists counter : Spider -> Z,
      counter (self_after (errback Sample.exhausted init)) = (counter init + 1)%Z.
Proof.
  intros [counter H].
  change (self_after (errback Sample.exhausted init)) with init in H. lia.
Qed.

(** C3, amended. A request that fails with attempt count [>= 3] is dropped:
    [errback] logs the failure and the give-up, yields and sleeps nothing,
    raises nothing and leaves the spider as it was; the crawl goes on with
    the deliveries that remain. *)
Theorem errback_giveup_drops (failure : Failure.t) (self : Spider) :
  (3 <= attempts failure)%N ->
  let o := errback failure self in
  yielded o = [] /\ sleeps o = [] /\ result o = inr tt /\ self_after o = self
  /\ (level_of <$> logs o) = [ERROR; WARNING]
  /\ (forall urljoin rest,
        let o' := crawl urljoin (Failed failure :: rest) self in
        trace o' = trace o ++ trace (crawl urljoin rest self)
        /\ self_after o' = self_after (crawl urljoin rest self)
        /\ result o' = inr tt).
Proof.
  intros H o. subst o. unfold attempts in H.
  rewrite errback_giveup by assumption.
  do 5 (split; [reflexivity|]).
  intros urljoin rest o'. subst o'.
  rewrite crawl_cons. cbn [dispatch trace self_after result].
  rewrite errback_giveup by assumption.
  split; [reflexivity|]. split; [reflexivity|]. apply crawl_result.
Qed.

Lemma errback_giveup_drops_witness :
  yielded (errback Sample.exhausted init) = []
  /\ self_after (errback Sample.exhausted init) = init.
Proof.
  destruct (errback_giveup_drops Sample.exhausted init) as (H1 & _ & _ & H2 & _).
  - cbn. lia.
  - split; [exact H1 | exact H2].
Defined.

(** ** Pagination *)

(** C4, as the claim states it, fails: a disabled next control still makes
    [parse_search] ask for the next page. *)
Lemma disabled_next_still_advances :
  enabled_next_control Sample.page_next_disabled = false
  /\ advance_requests (parse_search Sample.urljoin Sample.page_next_disabled init)
     = [next_page Sample.page_next_disabled].
Proof. split; vm_compute; reflexivity. Qed.

(** C4, amended. [parse_search] yields a request for the next page only
    when a [button[aria-label='Next']] is in the page, disabled or not, and
    at most one. A page without the button gets none, whatever its result
    entries are. When the button is there and the callback runs to its end
    (no profile link and not the URL of the page is refused by [Request]),
    exactly one such request is yielded, also for a page without a single
    entry: the missing button alone ends the pagination. *)
Theorem advance_iff_next_button (urljoin : Response.t -> string -> string)
    (response : Response.t) (self : Spider) :
  let o := parse_search urljoin response self in
  (advance_requests o <> [] -> next_button_present response)
  /\ (~ next_button_present response -> advance_requests o = [])
  /\ (next_button_present response ->
      Forall (fun link => valid_url (urljoin response link) = true)
             (profile_links response) ->
      valid_url (Response.url response) = true ->
      advance_requests o = [next_page response] /\ result o = inr tt)
  /\ (length (advance_requests o) <= 1)%nat
  /\ (result_entries Sample.empty_page_with_next = []
      /\ requests (parse_search urljoin Sample.empty_page_with_next self)
         = [next_page Sample.empty_page_with_next])
  /\ (length (result_entries Sample.page_without_next) = 3%nat
      /\ advance_requests (parse_search urljoin Sample.page_without_next self) = []).
Proof.
  intros o. subst o. unfold next_button_present.
  rewrite !advance_requests_parse_search, requests_parse_search.
  split; [|split; [|split; [|split; [|split]]]].
  - unfold advances. intros H.
    destruct (followed urljoin response (profile_links response)).2;
      [congruence|].
    destruct (Dom.css next_button_css (Selector response)); [congruence|discriminate].
  - unfold advances. intros H.
    destruct (Dom.css next_button_css (Selector response)) as [|b l].
    + destruct (followed urljoin response (profile_links response)).2; reflexivity.
    + exfalso. apply H. discriminate.
  - intros Hb Hlinks Hurl. rewrite result_parse_search. unfold advances.
    rewrite (followed_all urljoin response _ Hlinks). cbn [snd].
    destruct (Dom.css next_button_css (Selector response)); [congruence|].
    rewrite Hurl. split; reflexivity.
  - destruct (advances urljoin response); cbn; lia.
  - split; vm_compute; reflexivity.
  - split; [vm_compute; reflexivity|].
    unfold advances.
    destruct (followed urljoin Sample.page_without_next
                (profile_links Sample.page_without_next)).2;
      vm_compute; reflexivity.
Qed.

Lemma advance_iff_next_button_witness :
  advance_requests (parse_search Sample.urljoin Sample.page_with_next init)
  = [next_page Sample.page_with_next]
  /\ advance_requests (parse_search Sample.urljoin Sample.page_without_next init)
     = [].
Proof.
  destruct (advance_iff_next_button Sample.urljoin Sample.page_with_next init)
    as (_ & _ & H1 & _).
  destruct (advance_iff_next_button Sample.urljoin Sample.page_without_next init)
    as (_ & H2 & _).
  split.
  - apply H1.
    + unfold next_button_present. vm_compute. discriminate.
    + vm_compute. repeat constructor.
    + vm_compute. reflexivity.
  - apply H2. unfold next_button_present. vm_compute. intros H. apply H. reflexivity.
Defined.

Lemma length_omap_filter {A B : Type} (f : A -> option B) (l : list A) :
  length (omap f l) = length (filter (fun x => is_Some (f x)) l).
Proof.
  induction l as [|x l IH]; [reflexivity|].
  rewrite filter_cons. cbn [omap list_omap].
  destruct (decide (is_Some (f x))) as [[y Hy]|Hn].
  - rewrite Hy. cbn [length]. f_equal. exact IH.
  - destruct (f x) as [y|] eqn:Hx; [|exact IH].
    exfalso. apply Hn. eauto.
Qed.

(** C5. The claim is right and [parse_search] falls short of it. An entry
    whose profile link [Request] refuses (a [mailto:] or [javascript:]
    link) is not passed over: at the first such link the callback stops
    with [ValueError], having yielded the detail requests of the links
    before it only. The requests of the later entries and the request for
    the next page are lost. *)
Theorem refused_link_stops_search (urljoin : Response.t -> string -> string)
    (response : Response.t) (self : Spider) (pre : list string) (link : string)
    (post : list string) :
  profile_links response = pre ++ link :: post ->
  Forall (fun l => valid_url (urljoin response l) = true) pre ->
  valid_url (urljoin response link) = false ->
  let o := parse_search urljoin response self in
  result o = inl (missing_scheme (urljoin response link))
  /\ requests o = follow_profile urljoin response <$> pre
  /\ Request.url <$> requests o = urljoin response <$> pre
  /\ length (detail_requests o) = length pre
  /\ advance_requests o = [].
Proof.
  intros Hlinks Hpre Hlink o. subst o.
  rewrite result_parse_search, requests_parse_search,
    detail_requests_parse_search, advance_requests_parse_search.
  unfold advances.
  rewrite Hlinks, (followed_stops urljoin response pre link post Hpre Hlink).
  cbn [fst snd]. rewrite app_nil_r, length_fmap, url_follow_profile.
  repeat split.
Qed.

Lemma refused_link_stops_search_witness :
  length (result_entries Sample.page_with_mailto) = 3%nat
  /\ next_button_present Sample.page_with_mailto
  /\ result (parse_search Sample.urljoin Sample.page_with_mailto init)
     = inl (ValueError "Missing scheme in request url: mailto:grace@example.com")
  /\ requests (parse_search Sample.urljoin Sample.page_with_mailto init)
     = [follow_profile Sample.urljoin Sample.page_with_mailto
          "https://www.linkedin.com/in/ada"].
Proof.
  destruct (refused_link_stops_search Sample.urljoin Sample.page_with_mailto init
              ["https://www.linkedin.com/in/ada"] "mailto:grace@example.com"
              ["https://www.linkedin.com/in/grace"])
    as (Hr & Hq & _).
  - vm_compute. reflexivity.
  - vm_compute. repeat constructor.
  - vm_compute. reflexivity.
  - split; [vm_compute; reflexivity|].
    split; [unfold next_button_present; vm_compute; discriminate|].
    split; [exact Hr | exact Hq].
Defined.

(** ** Extraction *)

(** C6. The education entries kept in the record are exactly the entries of
    the page, in order, whose school text or period text has "France" as a
    substring. On the sample page the entry of "École Polytechnique, France"
    is kept, "MIT" with "2015-2019" is dropped and "MIT" with
    "2015-2019 France exchange" is kept. *)
Theorem education_kept_iff_France (now : string) (response : Response.t)
    (self : Spider) :
  (exists p,
      profiles (parse_profile now response self) = [p]
      /\ educations_in_france p
         = education_of <$> filter mentions_France (education_entries response))
  /\ (education_entries Sample.full_page
      = [ {| school_text := "École Polytechnique, France"; degree_text := "MSc";
             period_text := "2010-2012" |};
          {| school_text := "MIT"; degree_text := "BSc";
             period_text := "2015-2019" |};
          {| school_text := "MIT"; degree_text := "PhD";
             period_text := "2015-2019 France exchange" |} ]
      /\ (educations_in_france <$> profiles (parse_profile now Sample.full_page self))
         = [[ education "École Polytechnique, France" "MSc" "2010-2012";
              education "MIT" "PhD" "2015-2019 France exchange" ]]).
Proof.
  split.
  - exists (record_of now response). rewrite parse_profile_run.
    split; [reflexivity|]. cbn [record_of educations_in_france].
    rewrite filter_kept. reflexivity.
  - split; [vm_compute; reflexivity|].
    rewrite parse_profile_run. vm_compute. reflexivity.
Qed.

(** C7. [parse_profile] raises nothing, whatever the page, and yields one
    record; a field whose anchor is not in the page is the empty string. The
    sample page without its headline anchor gives a record with an empty
    headline and every other field filled; the page without any anchor
    gives a record that is empty but for its URL, and it is yielded. *)
Theorem extraction_total (now : string) (response : Response.t) (self : Spider) :
  let o := parse_profile now response self in
  let sel := Selector response in
  result o = inr tt
  /\ (exists p,
        yielded o = [ItemProfile p]
        /\ (Dom.css name_css sel = [] -> name p = "")
        /\ (Dom.css headline_css sel = [] -> headline p = "")
        /\ (Dom.css location_css sel = [] -> location p = "")
        /\ (Dom.css current_position_css sel = [] -> current_position p = ""))
  /\ yielded (parse_profile now Sample.page_without_headline self)
     = [ItemProfile
          {| name := "Ada Lovelace"; headline := ""; location := "Paris";
             current_position := "Analyst";
             educations_in_france :=
               [ education "École Polytechnique, France" "MSc" "2010-2012";
                 education "MIT" "PhD" "2015-2019 France exchange" ];
             skills := ["Rocq"; "Python"];
             profile_url := Sample.profile_url;
             scraped_at := now |}]
  /\ yielded (parse_profile now Sample.bare_page self)
     = [ItemProfile
          {| name := ""; headline := ""; location := ""; current_position := "";
             educations_in_france := []; skills := [];
             profile_url := Sample.profile_url; scraped_at := now |}].
Proof.
  intros o sel. subst o sel. rewrite !parse_profile_run.
  split; [reflexivity|]. split; [|split].
  - exists (record_of now response). split; [reflexivity|].
    cbn [record_of name headline location current_position].
    repeat split; apply field_text_missing.
  - vm_compute. reflexivity.
  - vm_compute. reflexivity.
Qed.

Lemma extraction_total_witness :
  exists p,
    yielded (parse_profile Sample.clock Sample.page_without_headline init)
    = [ItemProfile p]
    /\ headline p = "".
Proof.
  destruct (extraction_total Sample.clock Sample.page_without_headline init)
    as [_ [[p (Hy & _ & Hh & _)] _]].
  exists p. split; [exact Hy|]. apply Hh. vm_compute. reflexivity.
Defined.

Lemma education_keys (e : entry_texts) :
  education_of e !! "school" = Some (school_text e)
  /\ education_of e !! "degree" = Some (degree_text e)
  /\ education_of e !! "period" = Some (period_text e).
Proof.
  unfold education_of, education. split; [|split].
  - apply lookup_insert_eq.
  - rewrite lookup_insert_ne by discriminate. apply lookup_insert_eq.
  - rewrite !lookup_insert_ne by discriminate. apply lookup_insert_eq.
Qed.

(** C8. Every record emitted during a crawl comes from a delivered detail
    page and carries that page's URL in [profile_url]; each of its text
    fields is a string, the empty one where the page has no anchor for it;
    each kept education has its three keys, and the time stamp is the clock
    reading of the extraction. No field of an emitted record is missing. *)
Theorem emitted_record_complete (urljoin : Response.t -> string -> string)
    (ds : list delivery) (self : Spider) (i : nat) (p : LinkedInProfile) :
  profiles (crawl urljoin ds self) !! i = Some p ->
  exists now response,
    detail_pages ds !! i = Some (now, response)
    /\ profile_url p = Response.url response
    /\ scraped_at p = now
    /\ name p = field_text name_css (Selector response)
    /\ headline p = field_text headline_css (Selector response)
    /\ location p = field_text location_css (Selector response)
    /\ current_position p = field_text current_position_css (Selector response)
    /\ (Dom.css name_css (Selector response) = [] -> name p = "")
    /\ (Dom.css headline_css (Selector response) = [] -> headline p = "")
    /\ (Dom.css location_css (Selector response) = [] -> location p = "")
    /\ (Dom.css current_position_css (Selector response) = []
        -> current_position p = "")
    /\ (forall d, d ∈ educations_in_france p ->
          is_Some (d !! "school") /\ is_Some (d !! "degree")
          /\ is_Some (d !! "period")).
Proof.
  intros Hp. destruct (crawl_profiles urljoin ds self) as [Hc _].
  rewrite Hc, list_lookup_fmap in Hp.
  destruct (detail_pages ds !! i) as [[now response]|] eqn:Hd; [|discriminate].
  injection Hp as <-. exists now, response.
  cbn [record_of profile_url scraped_at name headline location current_position
       educations_in_france].
  do 7 (split; [reflexivity|]).
  do 4 (split; [apply field_text_missing|]).
  intros d Hd'. apply list_elem_of_fmap in Hd' as [e [-> _]].
  destruct (education_keys e) as (H1 & H2 & H3).
  rewrite H1, H2, H3. eauto.
Qed.

Lemma emitted_record_complete_witness :
  exists now response,
    profile_url (record_of Sample.clock Sample.bare_page) = Response.url response
    /\ scraped_at (record_of Sample.clock Sample.bare_page) = now
    /\ Response.url response = Sample.profile_url.
Proof.
  destruct (emitted_record_complete Sample.urljoin
              [ Rendered CbParseSearch Sample.clock Sample.page_with_next;
                Rendered CbParseProfile Sample.clock Sample.bare_page ]
              init 0 (record_of Sample.clock Sample.bare_page))
    as (now & response & Hd & Hu & Ht & _).
  - reflexivity.
  - exists now, response. split; [exact Hu|]. split; [exact Ht|].
    cbn in Hd. injection Hd as _ <-. reflexivity.
Defined.

(** C9. Extraction does not depend on when or in which state of the spider
    it runs: two runs of [parse_profile] on the same page yield records that
    agree on every field but [scraped_at], which holds the clock reading of
    each run. *)
Theorem extraction_deterministic (now1 now2 : string) (response : Response.t)
    (self1 self2 : Spider) :
  exists p1 p2,
    yielded (parse_profile now1 response self1) = [ItemProfile p1]
    /\ yielded (parse_profile now2 response self2) = [ItemProfile p2]
    /\ same_content p1 p2
    /\ scraped_at p1 = now1 /\ scraped_at p2 = now2.
Proof.
  exists (record_of now1 response), (record_of now2 response).
  rewrite !parse_profile_run. unfold same_content. repeat split.
Qed.

(** C10. [parse_profile] yields exactly one record for every page, also for
    the page without any anchor or education entry, and adds exactly one to
    [total_profiles]. Over a crawl started from [__init__], the counter and
    the number of emitted records both equal the number of detail pages
    delivered to [parse_profile]. *)
Theorem one_record_per_detail_page (now : string) (response : Response.t)
    (self : Spider) :
  let o := parse_profile now response self in
  (exists p, yielded o = [ItemProfile p])
  /\ total_profiles (self_after o) = (total_profiles self + 1)%Z
  /\ (length (profiles (parse_profile now Sample.bare_page self)) = 1%nat
      /\ Dom.css education_css (Selector Sample.bare_page) = [])
  /\ (forall urljoin ds,
        let c := crawl urljoin ds init in
        total_profiles (self_after c) = Z.of_nat (length (detail_pages ds))
        /\ length (profiles c) = length (detail_pages ds)
        /\ total_profiles (self_after c) = Z.of_nat (length (profiles c))).
Proof.
  intros o. subst o. rewrite !parse_profile_run.
  split; [eexists; reflexivity|]. split; [reflexivity|].
  split; [split; vm_compute; reflexivity|].
  intros urljoin ds c. subst c.
  destruct (crawl_profiles urljoin ds init) as [Hp Hc].
  rewrite Hp, Hc, length_fmap. cbn [init total_profiles]. repeat split; lia.
Qed.

(** * Further properties *)

(** ** More on strings *)

Lemma string_append_nil_r (s : string) : s +:+ "" = s.
Proof. induction s as [|c s IH]; [reflexivity|]. rewrite append_cons, IH. reflexivity. Qed.

Lemma string_append_assoc (s t u : string) : (s +:+ t) +:+ u = s +:+ t +:+ u.
Proof.
  induction s as [|c s IH]; [reflexivity|]. rewrite !append_cons, IH. reflexivity.
Qed.

Lemma string_length_append (s t : string) :
  String.length (s +:+ t) = (String.length s + String.length t)%nat.
Proof.
  induction s as [|c s IH]; [reflexivity|]. rewrite append_cons. cbn. rewrite IH. reflexivity.
Qed.

Lemma string_rev_app (s t : string) : String.rev_app s t = String.rev s +:+ t.
Proof.
  unfold String.rev. revert t. induction s as [|c s IH]; intros t; [reflexivity|].
  cbn. rewrite IH, (IH (String c "")), string_append_assoc. reflexivity.
Qed.

Lemma string_rev_cons (c : ascii) (s : string) :
  String.rev (String c s) = String.rev s +:+ String c "".
Proof. unfold String.rev at 1. cbn. apply string_rev_app. Qed.

Lemma string_rev_append (s t : string) :
  String.rev (s +:+ t) = String.rev t +:+ String.rev s.
Proof.
  induction s as [|c s IH].
  - rewrite string_append_nil_r. reflexivity.
  - rewrite append_cons, !string_rev_cons, IH, string_append_assoc. reflexivity.
Qed.

Lemma string_rev_involutive (s : string) : String.rev (String.rev s) = s.
Proof.
  induction s as [|c s IH]; [reflexivity|].
  rewrite string_rev_cons, string_rev_append, IH. reflexivity.
Qed.

Ltac bytes_in H :=
  repeat (rewrite andb_true_iff in H || rewrite orb_true_iff in H
          || rewrite N.eqb_eq in H || rewrite N.leb_le in H).

(** One step of [strip_front]: nothing to drop, or a white-space character
    of one, two or three bytes in front, dropped whatever follows it. *)
Lemma strip_front_step (b : bool) (s : string) :
  Py.strip_front b s = s
  \/ exists p s', s = p +:+ s'
       /\ (1 <= String.length p)%nat
       /\ (forall rest, Py.strip_front b (p +:+ rest) = Py.strip_front b rest)
       /\ space_bytes p.
Proof.
  unfold space_bytes, space_byte.
  destruct s as [|a s1]; [left; reflexivity|].
  destruct (Py.space1 (Py.code a)) eqn:H1.
  { right. exists (String a ""), s1. repeat split; cbn; try lia.
    - intros rest. rewrite append_cons. cbn [Py.strip_front]. rewrite H1. reflexivity.
    - intros c [<-|[]]. left. exact H1. }
  destruct s1 as [|a2 s2]; [left; cbn; rewrite H1; reflexivity|].
  destruct (if b then Py.space2 (Py.code a2) (Py.code a)
            else Py.space2 (Py.code a) (Py.code a2)) eqn:H2.
  { right. exists (String a (String a2 "")), s2. repeat split; cbn; try lia.
    - intros rest. rewrite !append_cons. cbn [Py.strip_front]. rewrite H1, H2. reflexivity.
    - intros c Hc. right.
      destruct b; unfold Py.space2 in H2; bytes_in H2;
        destruct Hc as [<-|[<-|[]]]; lia. }
  destruct s2 as [|a3 s3]; [left; cbn; rewrite H1, H2; reflexivity|].
  destruct (if b then Py.space3 (Py.code a3) (Py.code a2) (Py.code a)
            else Py.space3 (Py.code a) (Py.code a2) (Py.code a3)) eqn:H3;
    [|left; cbn; rewrite H1, H2, H3; reflexivity].
  right. exists (String a (String a2 (String a3 ""))), s3. repeat split; cbn; try lia.
  - intros rest. rewrite !append_cons. cbn [Py.strip_front]. rewrite H1, H2, H3. reflexivity.
  - intros c Hc. right.
    destruct b; unfold Py.space3 in H3; bytes_in H3;
      destruct Hc as [<-|[<-|[<-|[]]]]; lia.
Qed.

Lemma by_length (P : string -> Prop) :
  (forall s, (forall t, (String.length t < String.length s)%nat -> P t) -> P s) ->
  forall s, P s.
Proof.
  intros H s. remember (String.length s) as n eqn:Hn.
  revert s Hn. induction n as [n IH] using lt_wf_ind. intros s ->.
  apply H. intros t Ht. apply (IH _ Ht). reflexivity.
Qed.

Lemma space_bytes_append (s t : string) :
  space_bytes s -> space_bytes t -> space_bytes (s +:+ t).
Proof.
  unfold space_bytes. induction s as [|a s IH]; intros Hs Ht c; [apply Ht|].
  rewrite append_cons. cbn. intros [<-|Hc].
  - apply Hs. cbn. auto.
  - apply IH; [|exact Ht|exact Hc]. intros c' Hc'. apply Hs. cbn. auto.
Qed.

(** [strip_front] drops a run of white-space bytes and keeps the rest. *)
Lemma strip_front_suffix (b : bool) (s : string) :
  exists pre, s = pre +:+ Py.strip_front b s /\ space_bytes pre.
Proof.
  induction s as [s IH] using by_length.
  destruct (strip_front_step b s) as [H|(p & s' & -> & Hp & Hrest & Hb)].
  - exists "". rewrite H. split; [reflexivity|]. intros c [].
  - destruct (IH s') as (pre & Hpre & Hbp).
    { rewrite string_length_append. lia. }
    exists (p +:+ pre). rewrite Hrest, string_append_assoc, <- Hpre.
    split; [reflexivity|]. apply space_bytes_append; assumption.
Qed.

Lemma strip_front_length (b : bool) (s : string) :
  (String.length (Py.strip_front b s) <= String.length s)%nat.
Proof.
  destruct (strip_front_suffix b s) as (pre & H & _).
  rewrite H at 2. rewrite string_length_append. lia.
Qed.

Lemma strip_front_idem (b : bool) (s : string) :
  Py.strip_front b (Py.strip_front b s) = Py.strip_front b s.
Proof.
  induction s as [s IH] using by_length.
  destruct (strip_front_step b s) as [H|(p & s' & -> & Hp & Hrest & _)].
  - rewrite H. exact H.
  - rewrite Hrest. apply IH. rewrite string_length_append. lia.
Qed.

(** A string with nothing to drop in front has no prefix with something to
    drop. *)
Lemma strip_front_prefix (b : bool) (x y : string) :
  Py.strip_front b (x +:+ y) = x +:+ y -> Py.strip_front b x = x.
Proof.
  intros H. destruct (strip_front_step b x) as [Hx|(p & x' & -> & Hp & Hrest & _)];
    [exact Hx|].
  exfalso. rewrite string_append_assoc, Hrest in H.
  pose proof (strip_front_length b (x' +:+ y)) as Hl.
  rewrite H, !string_length_append in Hl. lia.
Qed.

Lemma space_bytes_rev (s : string) : space_bytes s -> space_bytes (String.rev s).
Proof.
  induction s as [|a s IH]; intros H; [exact H|].
  rewrite string_rev_cons. apply space_bytes_append.
  - apply IH. intros c Hc. apply H. cbn. auto.
  - intros c [<-|[]]. apply H. cbn. auto.
Qed.

Lemma rstrip_prefix (s : string) : exists post, s = Py.rstrip s +:+ post /\ space_bytes post.
Proof.
  unfold Py.rstrip. destruct (strip_front_suffix true (String.rev s)) as (pre & H & Hb).
  exists (String.rev pre). split.
  - rewrite <- string_rev_append, <- H, string_rev_involutive. reflexivity.
  - apply space_bytes_rev, Hb.
Qed.

(** [strip] twice is [strip] once. *)
Lemma strip_idem (s : string) : Py.strip (Py.strip s) = Py.strip s.
Proof.
  unfold Py.strip.
  assert (H1 : Py.lstrip (Py.rstrip (Py.lstrip s)) = Py.rstrip (Py.lstrip s)).
  { destruct (rstrip_prefix (Py.lstrip s)) as (post & Hpost & _).
    apply (strip_front_prefix false _ post). rewrite <- Hpost.
    apply strip_front_idem. }
  rewrite H1. unfold Py.rstrip. rewrite string_rev_involutive, strip_front_idem. reflexivity.
Qed.

Lemma contains_skip (c : ascii) (n pre s : string) :
  plain c -> space_bytes pre ->
  Py.contains (String c n) (pre +:+ s) = Py.contains (String c n) s.
Proof.
  intros [Hc1 Hc2]. induction pre as [|a pre IH]; intros Hpre; [reflexivity|].
  rewrite append_cons. cbn [Py.contains Py.startswith].
  assert (Ha : Ascii.eqb c a = false).
  { apply Ascii.eqb_neq. intros <-.
    destruct (Hpre c) as [H|H]; [cbn; auto|congruence|lia]. }
  rewrite Ha. cbn [andb orb]. apply IH.
  intros c' Hc'. apply Hpre. cbn. auto.
Qed.

Lemma substring_rev (n s : string) :
  substring n s -> substring (String.rev n) (String.rev s).
Proof.
  intros (pre & post & ->). exists (String.rev post), (String.rev pre).
  rewrite !string_rev_append, string_append_assoc. reflexivity.
Qed.

Lemma contains_rev (n s : string) :
  Py.contains (String.rev n) (String.rev s) = Py.contains n s.
Proof.
  destruct (Py.contains n s) eqn:H.
  - apply contains_spec, substring_rev, contains_spec, H.
  - destruct (Py.contains (String.rev n) (String.rev s)) eqn:H'; [|reflexivity].
    apply contains_spec, substring_rev in H'. rewrite !string_rev_involutive in H'.
    apply contains_spec in H'. congruence.
Qed.

(** A needle that starts and ends with a plain character is found in the
    stripped string exactly when it is found in the string. *)
Lemma contains_strip (n s : string) (c c' : ascii) (n' r : string) :
  n = String c n' -> String.rev n = String c' r -> plain c -> plain c' ->
  Py.contains n (Py.strip s) = Py.contains n s.
Proof.
  intros Hn Hr Hc Hc'. unfold Py.strip.
  destruct (strip_front_suffix false s) as (pre & Hs & Hpre).
  fold (Py.lstrip s) in Hs.
  destruct (rstrip_prefix (Py.lstrip s)) as (post & Ht & Hpost).
  transitivity (Py.contains n (Py.lstrip s)).
  - rewrite <- !(contains_rev n). rewrite Ht at 2. rewrite string_rev_append, Hr.
    symmetry. apply contains_skip; [exact Hc'|]. apply space_bytes_rev, Hpost.
  - rewrite Hs at 2. rewrite Hn. symmetry. apply contains_skip; assumption.
Qed.

Lemma France_plain :
  "France" = String "F" "rance" /\ String.rev "France" = String "e" "cnarF"
  /\ plain "F" /\ plain "e".
Proof. repeat split; vm_compute; reflexivity. Qed.

(** ** Stripped texts *)

Lemma field_text_stripped (css : list Dom.compound) (sel : Dom.Selector) :
  Py.strip (field_text css sel) = field_text css sel.
Proof. apply strip_idem. Qed.

Lemma education_values (e : entry_texts) (k v : string) :
  education_of e !! k = Some v ->
  (k = "school" /\ v = school_text e) \/ (k = "degree" /\ v = degree_text e)
  \/ (k = "period" /\ v = period_text e).
Proof.
  unfold education_of, education. intros H.
  apply lookup_insert_Some in H as [[<- <-]|[_ H]]; [auto|].
  apply lookup_insert_Some in H as [[<- <-]|[_ H]]; [auto|].
  apply lookup_insert_Some in H as [[<- <-]|[_ H]]; [auto|].
  rewrite lookup_empty in H. discriminate.
Qed.

(** X1. Every string of a record emitted during a crawl is stripped: the
    four text fields, each skill and each value of a kept education are
    left as they are by another [strip]. *)
Theorem emitted_texts_stripped (urljoin : Response.t -> string -> string)
    (ds : list delivery) (self : Spider) (i : nat) (p : LinkedInProfile) :
  profiles (crawl urljoin ds self) !! i = Some p ->
  Py.strip (name p) = name p /\ Py.strip (headline p) = headline p
  /\ Py.strip (location p) = location p
  /\ Py.strip (current_position p) = current_position p
  /\ (forall s, s ∈ skills p -> Py.strip s = s)
  /\ (forall d k v, d ∈ educations_in_france p -> d !! k = Some v -> Py.strip v = v).
Proof.
  intros Hp. destruct (crawl_profiles urljoin ds self) as [Hc _].
  rewrite Hc, list_lookup_fmap in Hp.
  destruct (detail_pages ds !! i) as [[now response]|]; [|discriminate].
  injection Hp as <-.
  cbn [record_of name headline location current_position skills educations_in_france].
  do 4 (split; [apply field_text_stripped|]). split.
  - intros s Hs. apply list_elem_of_In, in_map_iff in Hs as (s' & <- & _).
    apply strip_idem.
  - intros d k v Hd Hk. apply list_elem_of_fmap in Hd as (e & -> & He).
    rewrite filter_kept in He. apply list_elem_of_filter in He as [_ He].
    apply list_elem_of_fmap in He as (edu & -> & _).
    destruct (education_values _ k v Hk) as [[_ ->]|[[_ ->]|[_ ->]]];
      apply field_text_stripped.
Qed.

Lemma emitted_texts_stripped_witness :
  Py.strip (name (record_of Sample.clock Sample.full_page))
  = name (record_of Sample.clock Sample.full_page).
Proof.
  destruct (emitted_texts_stripped Sample.urljoin
              [Rendered CbParseProfile Sample.clock Sample.full_page] init 0
              (record_of Sample.clock Sample.full_page)) as [H _].
  - vm_compute. reflexivity.
  - exact H.
Defined.

(** X2. Stripping plays no part in the education filter: an entry is kept
    exactly when "France" occurs in the first text node under its school
    anchor or under its period anchor, as the page has them. *)
Theorem kept_on_raw_text (edu : Dom.Selector) :
  kept (read_entry edu)
  = Py.contains "France" (raw_text school_css edu)
    || Py.contains "France" (raw_text period_css edu).
Proof.
  unfold kept, read_entry, field_text, raw_text. cbn [school_text period_text].
  destruct France_plain as (Hn & Hr & Hc & Hc').
  rewrite !(contains_strip _ _ _ _ _ _ Hn Hr Hc Hc'). reflexivity.
Qed.

(** ** More on [parse_search] *)

(** X5. [parse_search] yields the detail requests first and the request for
    the next page last. The detail requests are for the profile links of
    the page in the order of its entries, each at the URL its link resolves
    to: for the first links always, for all of them when the callback ends
    without an exception. There is at most one request for the next page,
    and never more requests than entries plus one. *)
Theorem search_requests_in_order (urljoin : Response.t -> string -> string)
    (response : Response.t) (self : Spider) :
  let o := parse_search urljoin response self in
  let links := profile_links response in
  requests o = detail_requests o ++ advance_requests o
  /\ Request.url <$> detail_requests o `prefix_of` (urljoin response <$> links)
  /\ (result o = inr tt ->
      Request.url <$> detail_requests o = urljoin response <$> links)
  /\ (length (advance_requests o) <= 1)%nat
  /\ (length (requests o) <= length (result_entries response) + 1)%nat.
Proof.
  intros o links. subst o links.
  rewrite detail_requests_parse_search, advance_requests_parse_search,
    requests_parse_search, result_parse_search, url_follow_profile.
  pose proof (followed_prefix urljoin response (profile_links response)) as Hpre.
  split; [reflexivity|]. split; [|split; [|split]].
  - destruct Hpre as [k Hk]. exists (urljoin response <$> k).
    rewrite <- fmap_app, <- Hk. reflexivity.
  - intros H. rewrite followed_complete; [reflexivity|].
    destruct (followed urljoin response (profile_links response)).2;
      [discriminate|reflexivity].
  - destruct (advances urljoin response); cbn; lia.
  - apply prefix_length in Hpre. rewrite length_app, length_fmap.
    assert (Hl : (length (profile_links response)
                  <= length (result_entries response))%nat).
    { unfold profile_links. rewrite length_omap_filter. apply length_filter. }
    destruct (advances urljoin response); cbn [length]; lia.
Qed.

Lemma search_requests_in_order_witness :
  Request.url <$> detail_requests
                    (parse_search Sample.urljoin Sample.page_with_next init)
  = [ "https://www.linkedin.com/in/ada"; "https://www.linkedin.com/in/grace" ].
Proof.
  destruct (search_requests_in_order Sample.urljoin Sample.page_with_next init)
    as (_ & _ & H & _).
  rewrite H; vm_compute; reflexivity.
Defined.



(** ** More on [errback] *)

(** X7. The request [errback] yields is the failed one with its attempt
    count moved up by one: same URL, same callback and errback, same
    Playwright keys. There is at most one, and only below three attempts. *)
Theorem retry_keeps_request (failure : Failure.t) (self : Spider) (i : nat)
    (r : Request.t) :
  requests (errback failure self) !! i = Some r ->
  let request := Failure.request failure in
  i = 0%nat /\ (attempts failure < 3)%N
  /\ Request.url r = Request.url request
  /\ Request.callback r = Request.callback request
  /\ Request.errback r = Request.errback request
  /\ playwright (Request.meta r) = playwright (Request.meta request)
  /\ playwright_page_methods (Request.meta r)
     = playwright_page_methods (Request.meta request)
  /\ playwright_context (Request.meta r) = playwright_context (Request.meta request)
  /\ attempts {| Failure.request := r |} = (attempts failure + 1)%N.
Proof.
  intros H request. subst request. unfold attempts in *.
  destruct (N.lt_ge_cases
              (default 0%N (retry_times (Request.meta (Failure.request failure)))) 3)
    as [Hlt|Hge].
  - rewrite (errback_retry _ _ Hlt) in H. destruct i as [|i]; [|discriminate].
    injection H as <-. repeat split. exact Hlt.
  - rewrite (errback_giveup _ _ Hge) in H. discriminate.
Qed.

Lemma retry_keeps_request_witness :
  Request.url (Request.copy_with_retry_times Sample.request 2)
  = Request.url Sample.request
  /\ attempts {| Failure.request := Request.copy_with_retry_times Sample.request 2 |}
     = 2%N.
Proof.
  destruct (retry_keeps_request (failed_on Sample.request 1) init 0
              (Request.copy_with_retry_times Sample.request 2))
    as (_ & _ & Hu & _ & _ & _ & _ & _ & Ha).
  - reflexivity.
  - split; [exact Hu | exact Ha].
Defined.

Lemma keep_failing_giveup (n : nat) (request : Request.t) (self : Spider) :
  (3 <= attempts {| Failure.request := request |})%N ->
  keep_failing (S n) request self = errback {| Failure.request := request |} self.
Proof.
  intros H. unfold attempts in H. cbn [keep_failing].
  rewrite (errback_giveup _ _ H). reflexivity.
Qed.

(** X8. A request that fails every time is retried a bounded number of
    times: from attempt count [a], [errback] yields [3 - a] requests, sleeps
    the delays of [1, 2, 4] that are left, [8 - 2^a] seconds in all (7 from
    a fresh request), and ends on the give-up warning; four calls of
    [errback] are always enough, and the spider is left as it was. *)
Theorem retries_bounded (fuel : nat) (request : Request.t) (self : Spider) :
  (4 <= fuel)%nat ->
  let a := attempts {| Failure.request := request |} in
  let o := keep_failing fuel request self in
  sleeps o = drop (N.to_nat a) [1; 2; 4]%N
  /\ length (requests o) = N.to_nat (3 - a)
  /\ foldr N.add 0%N (sleeps o) = (8 - 2 ^ a)%N
  /\ level_of <$> last (logs o) = Some WARNING
  /\ self_after o = self /\ result o = inr tt.
Proof.
  intros Hfuel a o. subst o.
  destruct fuel as [|[|[|[|n]]]]; try lia. clear Hfuel.
  destruct (N.lt_ge_cases a 3) as [Hlt|Hge].
  - assert (Ha : a = 0%N \/ a = 1%N \/ a = 2%N) by lia.
    subst a. unfold attempts in *.
    destruct request as [u cb eb [pw pm pc [rt|]]]; cbn in Ha, Hlt |- *.
    + destruct Ha as [-> | [-> | ->]]; repeat split.
    + repeat split.
  - rewrite keep_failing_giveup by exact Hge.
    subst a. unfold attempts in *. rewrite (errback_giveup _ _ Hge).
    cbn [Failure.request] in *.
    set (a := default 0%N (retry_times (Request.meta request))) in *.
    assert (H8 : (8 <= 2 ^ a)%N).
    { change 8%N with (2 ^ 3)%N. apply N.pow_le_mono_r; lia. }
    repeat split.
    + unfold sleeps. cbn. rewrite drop_ge by (cbn; lia). reflexivity.
    + unfold requests, yielded. cbn. lia.
    + unfold sleeps. cbn. lia.
Qed.

Lemma retries_bounded_witness :
  sleeps (keep_failing 4 Sample.request init) = [1; 2; 4]%N
  /\ length (requests (keep_failing 4 Sample.request init)) = 3%nat.
Proof.
  destruct (retries_bounded 4 Sample.request init) as (H1 & H2 & _).
  - lia.
  - split; [exact H1 | exact H2].
Defined.

(** ** More on crawls *)

Section MoreCrawl.
Variable urljoin : Response.t -> string -> string.

Lemma requests_crawl_cons (d : delivery) (ds : list delivery) (self : Spider) :
  requests (crawl urljoin (d :: ds) self)
  = requests (dispatch urljoin d self)
    ++ requests (crawl urljoin ds (self_after (dispatch urljoin d self))).
Proof.
  rewrite crawl_cons. unfold requests, yielded. cbn [trace].
  rewrite !omap_app. reflexivity.
Qed.

Lemma crawl_app (ds1 ds2 : list delivery) (self : Spider) :
  crawl urljoin (ds1 ++ ds2) self
  = let o1 := crawl urljoin ds1 self in
    let o2 := crawl urljoin ds2 (self_after o1) in
    Outcome (trace o1 ++ trace o2) (self_after o2) (result o2).
Proof.
  revert self. induction ds1 as [|d ds1 IH]; intros self.
  - cbn [app]. cbn. destruct (crawl urljoin ds2 self); reflexivity.
  - rewrite <- app_comm_cons, !crawl_cons. cbn zeta. rewrite IH.
    cbn [trace self_after result]. rewrite app_assoc. reflexivity.
Qed.

(** X10. A crawl over [ds1 ++ ds2] is the crawl over [ds1] followed by the
    crawl over [ds2] from the state the first one left: later deliveries
    change nothing of what was emitted before, and [total_profiles] never
    goes down. *)
Theorem crawl_in_two_parts (ds1 ds2 : list delivery) (self : Spider) :
  let o1 := crawl urljoin ds1 self in
  let o := crawl urljoin (ds1 ++ ds2) self in
  trace o = trace o1 ++ trace (crawl urljoin ds2 (self_after o1))
  /\ self_after o = self_after (crawl urljoin ds2 (self_after o1))
  /\ profiles o1 `prefix_of` profiles o
  /\ (total_profiles self <= total_profiles (self_after o1)
      <= total_profiles (self_after o))%Z.
Proof.
  intros o1 o. subst o1 o. rewrite crawl_app. cbn [trace self_after].
  split; [reflexivity|]. split; [reflexivity|]. split.
  - unfold profiles, yielded. cbn [trace]. rewrite !omap_app.
    apply prefix_app_r. reflexivity.
  - destruct (crawl_profiles urljoin ds1 self) as [_ H1].
    destruct (crawl_profiles urljoin ds2 (self_after (crawl urljoin ds1 self)))
      as [_ H2].
    lia.
Qed.

Lemma requests_parse_profile (now : string) (response : Response.t) (self : Spider) :
  requests (parse_profile now response self) = [].
Proof. rewrite parse_profile_run. reflexivity. Qed.

Lemma requests_errback (failure : Failure.t) (self : Spider) :
  requests (errback failure self)
  = if (attempts failure <? 3)%N
    then [Request.copy_with_retry_times (Failure.request failure)
            (attempts failure + 1)]
    else [].
Proof.
  unfold attempts.
  destruct (N.ltb_spec
              (default 0%N (retry_times (Request.meta (Failure.request failure)))) 3)
    as [H|H].
  - rewrite (errback_retry _ _ H). reflexivity.
  - rewrite (errback_giveup _ _ H). reflexivity.
Qed.

(** X9. Every request the spider makes is rendered with Playwright and has
    [errback] attached: the seed request of [start_requests], the requests
    of [parse_search], and the retries of [errback] as long as the failed
    requests were themselves such requests. *)
Theorem requests_rendered_and_guarded (ds : list delivery) (self : Spider)
    (i : nat) (r : Request.t) :
  (forall failure, Failed failure ∈ ds ->
     rendered_and_guarded (Failure.request failure)) ->
  (requests (start_requests self) ++ requests (crawl urljoin ds self)) !! i = Some r ->
  rendered_and_guarded r.
Proof.
  intros Hds Hr. assert (Hr' : r ∈ requests (start_requests self)
                                  ++ requests (crawl urljoin ds self)).
  { apply list_elem_of_lookup. eauto. }
  clear Hr. rename Hr' into Hr. apply elem_of_app in Hr as [Hr|Hr].
  { assert (Hs : requests (start_requests self)
                 = [{| Request.url := search_url;
                       Request.callback := CbParseSearch;
                       Request.errback := true;
                       Request.meta :=
                         {| playwright := Some true;
                            playwright_page_methods :=
                              Some [("wait_for_selector",
                                     "ul.reusable-search__result-list")];
                            playwright_context := Some "default";
                            retry_times := None |} |}])
      by (vm_compute; reflexivity).
    rewrite Hs in Hr. apply list_elem_of_singleton in Hr as ->. split; reflexivity. }
  revert self Hr. induction ds as [|d ds IH]; intros self Hr.
  - cbn in Hr. inversion Hr.
  - rewrite requests_crawl_cons in Hr. apply elem_of_app in Hr as [Hr|Hr].
    + destruct d as [[|] now response|failure]; cbn [dispatch] in Hr.
      * rewrite requests_parse_search in Hr. apply elem_of_app in Hr as [Hr|Hr].
        -- apply list_elem_of_fmap in Hr as (link & -> & _). split; reflexivity.
        -- destruct (advances urljoin response); [|inversion Hr].
           apply list_elem_of_singleton in Hr as ->. split; reflexivity.
      * rewrite requests_parse_profile in Hr. inversion Hr.
      * assert (Hf : rendered_and_guarded (Failure.request failure)).
        { apply Hds. apply elem_of_cons. auto. }
        rewrite requests_errback in Hr.
        destruct (attempts failure <? 3)%N; [|inversion Hr].
        apply list_elem_of_singleton in Hr as ->. exact Hf.
    + apply (IH (fun f Hf => Hds f (proj2 (elem_of_cons _ _ _) (or_intror Hf))) _ Hr).
Qed.

(** X11. The last line a run logs is the closing line, and the number it
    shows is the number of records the run emitted; a run without a single
    detail page, the run without any delivery among them, ends on
    [CloseSpider]. *)
Theorem closing_line_counts (ds : list delivery) :
  let o := run urljoin ds in
  last (logs o)
  = Some (INFO, "[spider_closed] linkedin finished; profiles scraped: "
                +:+ Py.str_of_Z (Z.of_nat (length (profiles o))))
  /\ (detail_pages ds = [] ->
      result o = inl (CloseSpider "No profiles scraped — shutting down")).
Proof.
  intros o. subst o. destruct (run_unfold urljoin ds) as [Hp Hr].
  destruct (crawl_profiles urljoin ds init) as [Hc Ht].
  rewrite Hp, Hr, Hc, length_fmap. split.
  - unfold run. rewrite bind_run, crawl_result, on_spider_closed_run.
    unfold logs. cbn [trace self_after]. rewrite omap_app. cbn [omap list_omap].
    rewrite last_snoc, Ht. reflexivity.
  - intros ->. reflexivity.
Qed.

End MoreCrawl.

Lemma requests_rendered_and_guarded_witness :
  rendered_and_guarded (Request.copy_with_retry_times Sample.request 2).
Proof.
  apply (requests_rendered_and_guarded Sample.urljoin
           [ Rendered CbParseSearch Sample.clock Sample.page_without_next;
             Failed (failed_on Sample.request 1) ]
           init 3).
  - intros failure H. apply elem_of_cons in H as [H|H]; [discriminate|].
    apply list_elem_of_singleton in H. injection H as ->. split; reflexivity.
  - vm_compute. reflexivity.
Defined.

Lemma closing_line_counts_witness :
  result (run Sample.urljoin [])
  = inl (CloseSpider "No profiles scraped — shutting down").
Proof.
  destruct (closing_line_counts Sample.urljoin []) as [_ H].
  apply H. reflexivity.
Defined.

(** ** More on the kept educations *)

Lemma education_dom (school degree period : string) :
  dom (education school degree period) = ({["school"; "degree"; "period"]} : gset string).
Proof. unfold education. rewrite !dom_insert_L, dom_empty_L. set_solver. Qed.

(** X3. Every education of an emitted record is one of the page's entries
    with exactly the keys "school", "degree" and "period", and "France"
    occurs in its school or in its period; the kept educations are in page
    order and never more than the page has entries. *)
Theorem kept_educations_sound (now : string) (response : Response.t)
    (self : Spider) (i : nat) (p : LinkedInProfile) :
  profiles (parse_profile now response self) !! i = Some p ->
  (forall d, d ∈ educations_in_france p ->
     exists school degree period,
       d = education school degree period
       /\ (substring "France" school \/ substring "France" period)
       /\ dom d = ({["school"; "degree"; "period"]} : gset string))
  /\ educations_in_france p `sublist_of` (education_of <$> education_entries response)
  /\ (length (educations_in_france p) <= length (education_entries response))%nat.
Proof.
  rewrite parse_profile_run. intros H. destruct i as [|i]; [|discriminate].
  injection H as <-. cbn [record_of educations_in_france]. rewrite filter_kept.
  split; [|split].
  - intros d Hd. apply list_elem_of_fmap in Hd as (e & -> & He).
    apply list_elem_of_filter in He as [He _].
    exists (school_text e), (degree_text e), (period_text e).
    split; [reflexivity|]. split; [exact He|]. apply education_dom.
  - apply fmap_sublist, sublist_filter.
  - rewrite length_fmap. apply length_filter.
Qed.

Lemma kept_educations_sound_witness :
  (length (educations_in_france (record_of Sample.clock Sample.full_page)) <= 3)%nat.
Proof.
  destruct (kept_educations_sound Sample.clock Sample.full_page init 0
              (record_of Sample.clock Sample.full_page)) as (_ & _ & H).
  - vm_compute. reflexivity.
  - exact H.
Defined.

(** X4. The skills of an emitted record are the skill texts of the page,
    each stripped, in page order and with their duplicates: as many as the
    page has. *)
Theorem skills_in_page_order (now : string) (response : Response.t)
    (self : Spider) (i : nat) (p : LinkedInProfile) :
  profiles (parse_profile now response self) !! i = Some p ->
  let texts := Dom.css_text skills_css (Selector response) in
  length (skills p) = length texts
  /\ (forall j, skills p !! j = Py.strip <$> texts !! j)
  /\ (texts = [] -> skills p = []).
Proof.
  rewrite parse_profile_run. intros H texts. subst texts.
  destruct i as [|i]; [|discriminate]. injection H as <-.
  cbn [record_of skills]. unfold Dom.getall.
  change (map Py.strip) with (fmap (M:=list) Py.strip).
  split; [apply length_fmap|]. split; [intros j; apply list_lookup_fmap|].
  intros ->. reflexivity.
Qed.

Lemma skills_in_page_order_witness :
  skills (record_of Sample.clock Sample.full_page) = ["Rocq"; "Python"].
Proof.
  destruct (skills_in_page_order Sample.clock Sample.full_page init 0
              (record_of Sample.clock Sample.full_page)) as (_ & H & _).
  - vm_compute. reflexivity.
  - apply list_eq. intros j. rewrite H. vm_compute.
    destruct j as [|[|[|j]]]; reflexivity.
Defined.
